(** * cloudbridge: canonical resource states, refresh, and the AWS launch path

    A shallow embedding of

    - [cloudbridge/cloud/providers/openstack/resources.py]: the four
      [*_STATE_MAP] tables, the [state] properties and the [refresh] methods
      of [OpenStackInstance], [OpenStackVolume], [OpenStackSnapshot] and
      [OpenStackMachineImage];
    - [cloudbridge/cloud/providers/aws/services.py]: [AWSVolumeService.create],
      [AWSInstanceService.create], [_process_block_device_mappings] and
      [_get_net_id].

    Python objects live in an explicit store and are named by their index, so
    that an assignment to an attribute of an object is seen through every
    reference to it. *)

From Stdlib Require Import ZArith Lia DecimalString.
From stdpp Require Import base option strings list gmap.

Local Open Scope string_scope.
Local Open Scope list_scope.

(** ** Python dictionaries written as literals *)

(** A dictionary display [{k1: v1, k2: v2, ...}] is evaluated left to right,
    a later item replacing an earlier one with the same key. *)
Definition python_dict {V} (items : list (string * V)) : gmap string V :=
  fold_left (fun m kv => <[kv.1 := kv.2]> m) items ∅.

(** [d.get(k, dflt)] *)
Definition dict_get_default {V} (d : gmap string V) (k : string) (dflt : V) : V :=
  default dflt (d !! k).

(** ** Canonical states *)

(** Modelled from the spec: the enumerations of
    [cloudbridge/cloud/interfaces/resources.py] ([InstanceState],
    [VolumeState], [SnapshotState], [MachineImageState]) are not part of the
    sources at hand; section 3 of the specification lists their members. *)
Module InstanceState.
Inductive t :=
PENDING | CONFIGURING | REBOOTING | RUNNING | STOPPED | TERMINATED | ERROR
| UNKNOWN.
End InstanceState.

Module VolumeState.
Inductive t := CREATING | CONFIGURING | AVAILABLE | IN_USE | ERROR | UNKNOWN.
End VolumeState.

Module SnapshotState.
Inductive t := PENDING | CONFIGURING | AVAILABLE | ERROR | UNKNOWN.
End SnapshotState.

Module MachineImageState.
Inductive t := PENDING | AVAILABLE | ERROR | UNKNOWN.
End MachineImageState.

(** ** Provider payloads and the object store *)

(** What the OpenStack client libraries hand back for a server, a volume, a
    snapshot or an image: an object whose attributes the wrappers read.  The
    attributes read by the code under study are fields; every other attribute
    is kept in [os_attrs]. *)
Record os_object := OsObject {
  os_id : string;
  os_name : string;
  os_status : string;
  os_attrs : gmap string string
}.

(** [obj.status = value] *)
Definition set_status (value : string) (o : os_object) : os_object :=
  {| os_id := os_id o; os_name := os_name o; os_status := value;
     os_attrs := os_attrs o |}.

(** The store of payload objects; a reference is an index, allocation appends. *)
Abbreviation heap := (list os_object).

(** A cloudbridge wrapper ([OpenStackInstance], [OpenStackVolume], ...): the
    attribute [_os_instance] (resp. [_volume], [_snapshot], [_os_image]) is a
    reference to the payload. *)
Record resource := Resource { _payload : nat }.

Section TrackedResource.
Context {State : Type}.
(** the class attribute [*_STATE_MAP] and the enumeration's [UNKNOWN] *)
Variable STATE_MAP : gmap string State.
Variable UNKNOWN : State.
(** The describe-by-id collaborator, [self._provider.<service>.get(id)]: the
    payload the provider answers with, or [None] when the identity is gone.
    The service wraps a found payload in a new wrapper object. *)
Variable describe : string -> option os_object.

(** [<STATE_MAP>.get(status, <State>.UNKNOWN)] *)
Definition normalize (status : string) : State :=
  dict_get_default STATE_MAP status UNKNOWN.

(** the [id] / [instance_id] property *)
Definition resource_id (self : resource) (h : heap) : option string :=
  os_id <$> h !! _payload self.

(** the [state] property *)
Definition state (self : resource) (h : heap) : option State :=
  (fun o => normalize (os_status o)) <$> h !! _payload self.

(** [<service>.get(id)]: [None], or a new wrapper around a new payload. *)
Definition service_get (id : string) (h : heap) : option resource * heap :=
  match describe id with
  | Some p => (Some (Resource (List.length h)), h ++ [p])
  | None => (None, h)
  end.

(** [refresh].  The result is [None] only when [self] refers to no object of
    the store, which no Python reference does. *)
Definition refresh (self : resource) (h : heap) : option (resource * heap) :=
  id ← resource_id self h;
  match service_get id h with
  | (Some found, h') =>
      (* self._os_instance = instance._os_instance *)
      Some (Resource (_payload found), h')
  | (None, h') =>
      (* self._os_instance.status = 'unknown' *)
      Some (self, alter (set_status "unknown") (_payload self) h')
  end.

(** what a caller reads through the wrapper *)
Definition view (self : resource) (h : heap) : option os_object :=
  h !! _payload self.
End TrackedResource.

Module OpenStackMachineImage.
Import MachineImageState.
Definition IMAGE_STATE_ITEMS : list (string * MachineImageState.t) :=
  [ ("QUEUED", PENDING);
    ("SAVING", PENDING);
    ("ACTIVE", AVAILABLE);
    ("KILLED", ERROR);
    ("DELETED", ERROR);
    ("PENDING_DELETE", ERROR) ].
Definition IMAGE_STATE_MAP := python_dict IMAGE_STATE_ITEMS.
Definition normalize := normalize IMAGE_STATE_MAP UNKNOWN.
Definition state := state IMAGE_STATE_MAP UNKNOWN.
Definition refresh := refresh.
End OpenStackMachineImage.

Module OpenStackInstance.
Import InstanceState.
Definition INSTANCE_STATE_ITEMS : list (string * InstanceState.t) :=
  [ ("ACTIVE", RUNNING);
    ("BUILD", PENDING);
    ("DELETED", TERMINATED);
    ("ERROR", ERROR);
    ("HARD_REBOOT", REBOOTING);
    ("PASSWORD", PENDING);
    ("PAUSED", STOPPED);
    ("REBOOT", REBOOTING);
    ("REBUILD", CONFIGURING);
    ("RESCUE", CONFIGURING);
    ("RESIZE", CONFIGURING);
    ("REVERT_RESIZE", CONFIGURING);
    ("SOFT_DELETED", STOPPED);
    ("STOPPED", STOPPED);
    ("SUSPENDED", STOPPED);
    ("SHUTOFF", STOPPED);
    ("UNKNOWN", UNKNOWN);
    ("VERIFY_RESIZE", CONFIGURING) ].
Definition INSTANCE_STATE_MAP := python_dict INSTANCE_STATE_ITEMS.
Definition normalize := normalize INSTANCE_STATE_MAP UNKNOWN.
Definition state := state INSTANCE_STATE_MAP UNKNOWN.
Definition refresh := refresh.
End OpenStackInstance.

Module OpenStackVolume.
Import VolumeState.
Definition VOLUME_STATE_ITEMS : list (string * VolumeState.t) :=
  [ ("creating", CREATING);
    ("available", AVAILABLE);
    ("attaching", CONFIGURING);
    ("in-use", IN_USE);
    ("deleting", CONFIGURING);
    ("error", ERROR);
    ("error_deleting", ERROR);
    ("backing-up", CONFIGURING);
    ("restoring-backup", CONFIGURING);
    ("error_restoring", ERROR);
    ("error_extending", ERROR) ].
Definition VOLUME_STATE_MAP := python_dict VOLUME_STATE_ITEMS.
Definition normalize := normalize VOLUME_STATE_MAP UNKNOWN.
Definition state := state VOLUME_STATE_MAP UNKNOWN.
Definition refresh := refresh.
End OpenStackVolume.

Module OpenStackSnapshot.
Import SnapshotState.
Definition SNAPSHOT_STATE_ITEMS : list (string * SnapshotState.t) :=
  [ ("creating", PENDING);
    ("available", AVAILABLE);
    ("deleting", CONFIGURING);
    ("error", ERROR);
    ("error_deleting", ERROR) ].
Definition SNAPSHOT_STATE_MAP := python_dict SNAPSHOT_STATE_ITEMS.
Definition normalize := normalize SNAPSHOT_STATE_MAP UNKNOWN.
Definition state := state SNAPSHOT_STATE_MAP UNKNOWN.
Definition refresh := refresh.
End OpenStackSnapshot.

(** ** OpenStack: more of the resource classes *)

(** The [os_image] argument of [OpenStackMachineImage.__init__]: a wrapper,
    or a payload object of the store. *)
Inductive image_arg :=
| Wrapper (r : resource)
| Payload (p : nat).

(** [OpenStackMachineImage.__init__]: built from a wrapper, the new wrapper
    refers to the very payload object of the old one. *)
Definition OpenStackMachineImage_init (os_image : image_arg) : resource :=
  match os_image with
  | Wrapper r => Resource (_payload r)
  | Payload p => Resource p
  end.

(** How a call to the Swift client ends: well, with a [ClientException] and
    its HTTP status, or with some other exception. *)
Inductive swift_outcome :=
| SwiftDone
| SwiftClientException (http_status : Z)
| SwiftOtherException.

(** [OpenStackContainerObject.delete], given how [swift.delete_object] ends;
    [None] when the exception is not caught. *)
Definition OpenStackContainerObject_delete (outcome : swift_outcome)
  : option bool :=
  match outcome with
  | SwiftDone => Some false
  | SwiftClientException http_status =>
      if Z.eqb http_status 404 then Some true else Some false
  | SwiftOtherException => None
  end.

(** The two shapes of call [add_rule] makes to
    [nova.security_group_rules.create]: with [group_id], or with [cidr]. *)
Inductive rule_call :=
| GroupRule (parent_group_id ip_protocol : string) (from_port to_port : Z)
    (group_id : string)
| CidrRule (parent_group_id : string) (ip_protocol : option string)
    (from_port to_port : option Z) (cidr : option string).

(** [OpenStackSecurityGroup.add_rule]: the value returned ([None] is Python's
    [None]) and the calls made.  [answer] tells whether what [create] hands
    back counts as true; [src_group] is the id of the source group, if one is
    given. *)
Definition add_rule (answer : rule_call -> bool) (self_id : string)
    (ip_protocol : option string) (from_port to_port : option Z)
    (cidr_ip : option string) (src_group : option string)
  : option bool * list rule_call :=
  match src_group with
  | Some gid =>
      (None,
       (fun protocol => GroupRule self_id protocol 1 65535 gid)
         <$> ["tcp"; "udp"])
  | None =>
      let call := CidrRule self_id ip_protocol from_port to_port cidr_ip in
      (Some (answer call), [call])
  end.

Section InstanceAddresses.
(** [ipaddress.ip_address(address).is_private]; [None] when the address does
    not parse and [ip_address] raises [ValueError]. *)
Variable ip_is_private : string -> option bool.

(** [[a for a in addresses if keep(a)]], raising as soon as a test raises *)
Fixpoint select_addresses (keep : bool -> bool) (addresses : list string)
  : option (list string) :=
  match addresses with
  | [] => Some []
  | address :: rest =>
      b ← ip_is_private address;
      r ← select_addresses keep rest;
      Some (if keep b then address :: r else r)
  end.

(** the same over [networks.items()], label by label *)
Fixpoint select_networks (keep : bool -> bool)
    (networks : list (string * list string)) : option (list string) :=
  match networks with
  | [] => Some []
  | (_, addresses) :: rest =>
      here ← select_addresses keep addresses;
      there ← select_networks keep rest;
      Some (here ++ there)
  end.

(** [OpenStackInstance.public_ips] and [private_ips] *)
Definition public_ips (networks : list (string * list string)) :=
  select_networks negb networks.

Definition private_ips (networks : list (string * list string)) :=
  select_networks (fun b => b) networks.
End InstanceAddresses.

(** ** AWS: Python values, exceptions and collaborator calls *)

(** The classes the AWS services test with [isinstance].  [AWSSnapshot] and
    [AWSVolume] (of [aws/resources.py]) implement the interfaces [Snapshot] and
    [Volume]. *)
Inductive pyclass :=
| PlacementZone | Snapshot | AWSSnapshot | Volume | AWSVolume | MachineImage
| InstanceType | KeyPair | SecurityGroup | AWSInstance.

(** [issubclass(c, d)]: every class is its own subclass, and the two AWS
    resource classes are subclasses of their interfaces. *)
Definition subclass (c d : pyclass) : bool :=
  match c, d with
  | AWSSnapshot, Snapshot | AWSVolume, Volume => true
  | PlacementZone, PlacementZone | Snapshot, Snapshot
  | AWSSnapshot, AWSSnapshot | Volume, Volume | AWSVolume, AWSVolume
  | MachineImage, MachineImage | InstanceType, InstanceType
  | KeyPair, KeyPair | SecurityGroup, SecurityGroup
  | AWSInstance, AWSInstance => true
  | _, _ => false
  end.

(** The values that reach the parameters of the services: [None], a string,
    or an object of one of the classes above with its [id] and [name]. *)
Inductive pyval :=
| PyNone
| PyStr (s : string)
| PyObj (cls : pyclass) (id name : string).

Definition isinstance (v : pyval) (c : pyclass) : bool :=
  match v with
  | PyObj cls _ _ => subclass cls c
  | _ => false
  end.

(** truth value of a Python value in a condition *)
Definition truthy (v : pyval) : bool :=
  match v with
  | PyNone => false
  | PyStr s => negb (String.eqb s "")
  | PyObj _ _ _ => true
  end.

Inductive exn := StopIteration | UnboundLocalError | IndexError | AttributeError.

(** boto's [BlockDeviceType], by the attributes the service assigns; a new
    object has none of them set. *)
Record BlockDeviceType := {
  bd_ephemeral_name : option string;
  bd_snapshot_id : option string;
  bd_volume_id : option string;
  (** [None]: never assigned; [Some v]: assigned the device's value [v] *)
  bd_delete_on_terminate : option (option bool);
  bd_size : option Z
}.

Definition new_bd : BlockDeviceType :=
  {| bd_ephemeral_name := None; bd_snapshot_id := None; bd_volume_id := None;
     bd_delete_on_terminate := None; bd_size := None |}.

Definition set_ephemeral_name (v : string) (b : BlockDeviceType) :=
  {| bd_ephemeral_name := Some v; bd_snapshot_id := bd_snapshot_id b;
     bd_volume_id := bd_volume_id b;
     bd_delete_on_terminate := bd_delete_on_terminate b; bd_size := bd_size b |}.
Definition set_snapshot_id (v : string) (b : BlockDeviceType) :=
  {| bd_ephemeral_name := bd_ephemeral_name b; bd_snapshot_id := Some v;
     bd_volume_id := bd_volume_id b;
     bd_delete_on_terminate := bd_delete_on_terminate b; bd_size := bd_size b |}.
Definition set_volume_id (v : string) (b : BlockDeviceType) :=
  {| bd_ephemeral_name := bd_ephemeral_name b; bd_snapshot_id := bd_snapshot_id b;
     bd_volume_id := Some v;
     bd_delete_on_terminate := bd_delete_on_terminate b; bd_size := bd_size b |}.
Definition set_delete_on_terminate (v : option bool) (b : BlockDeviceType) :=
  {| bd_ephemeral_name := bd_ephemeral_name b; bd_snapshot_id := bd_snapshot_id b;
     bd_volume_id := bd_volume_id b;
     bd_delete_on_terminate := Some v; bd_size := bd_size b |}.
Definition set_size (v : Z) (b : BlockDeviceType) :=
  {| bd_ephemeral_name := bd_ephemeral_name b; bd_snapshot_id := bd_snapshot_id b;
     bd_volume_id := bd_volume_id b;
     bd_delete_on_terminate := bd_delete_on_terminate b; bd_size := Some v |}.

(** The keyword arguments of [ec2_conn.run_instances].  The block device map
    is recorded as the call finds it: each slot with the descriptor object it
    refers to. *)
Record run_args := {
  image_id : pyval;
  instance_type : pyval;
  min_count : Z;
  max_count : Z;
  placement : pyval;
  key_name : pyval;
  security_groups : option (list string);
  user_data : pyval;
  block_device_map : option (gmap string BlockDeviceType);
  subnet_id : pyval
}.

(** What the service asks of its collaborators, in order, with the answers. *)
Inductive event :=
| EvCreateVolume (size : option Z) (zone_name snapshot : pyval) (volume_id : string)
| EvRunInstances (args : run_args) (reservation : option (list string))
| EvSetName (cls : pyclass) (id name : string).

(** The objects of the run and the calls made so far. *)
Record world := World {
  objs : list BlockDeviceType;
  trace : list event
}.

Definition world0 : world := World [] [].

(** A computation raises or returns, and leaves a world either way. *)
Definition M (A : Type) : Type := world -> (exn + A) * world.

#[global] Instance M_ret : MRet M := fun A x w => (inr x, w).
#[global] Instance M_bind : MBind M := fun A B f m w =>
  match m w with
  | (inr a, w') => f a w'
  | (inl e, w') => (inl e, w')
  end.

#[global] Instance M_fmap : FMap M := fun A B f m w =>
  match m w with
  | (inr a, w') => (inr (f a), w')
  | (inl e, w') => (inl e, w')
  end.

Definition raise {A} (e : exn) : M A := fun w => (inl e, w).

Definition emit (ev : event) : M unit :=
  fun w => (inr tt, World (objs w) (trace w ++ [ev])).

(** [BlockDeviceType()] *)
Definition new_BlockDeviceType : M nat :=
  fun w => (inr (List.length (objs w)), World (objs w ++ [new_bd]) (trace w)).

(** [r.attr = v], with [f] the update of that attribute *)
Definition setattr (r : nat) (f : BlockDeviceType -> BlockDeviceType) : M unit :=
  fun w => (inr tt, World (alter f r (objs w)) (trace w)).

(** [v.id] and [v.name] *)
Definition getattr_id (v : pyval) : M string :=
  match v with
  | PyObj _ id _ => mret id
  | _ => raise AttributeError
  end.

Definition getattr_name (v : pyval) : M string :=
  match v with
  | PyObj _ _ name => mret name
  | _ => raise AttributeError
  end.

(** [next(it)] on a list iterator *)
Definition next {A} (it : list A) : exn + (A * list A) :=
  match it with
  | [] => inl StopIteration
  | x :: rest => inr (x, rest)
  end.

(** [string.ascii_lowercase], [s[n:]] and [list(s)] *)
Definition ascii_lowercase : string := "abcdefghijklmnopqrstuvwxyz".

Definition slice_from (n : nat) (s : string) : string :=
  String.substring n (String.length s - n) s.

Fixpoint list_of_str (s : string) : list string :=
  match s with
  | EmptyString => []
  | String a s' => String a EmptyString :: list_of_str s'
  end.

(** ['%s' % n] for a non-negative integer *)
Definition str_of_nat (n : nat) : string :=
  NilZero.string_of_uint (Nat.to_uint n).

(** The launch configuration ([BaseLaunchConfig] and its block devices), by
    the attributes the service reads. *)
Record block_device := {
  is_volume : bool;
  source : pyval;
  is_root : bool;
  size : option Z;
  delete_on_terminate : option bool
}.

Record launch_config := {
  block_devices : list block_device;
  net_ids : list string
}.

(** The [security_groups] argument of [AWSInstanceService.create], when it is
    not [None]: a list of [SecurityGroup] objects (each with its [id] and
    [name]) or a list of names. *)
Inductive sg_list :=
| SGObjects (l : list (string * string))
| SGNames (l : list string).

(** [device.size] when it counts as true, i.e. is neither [None] nor [0] *)
Definition size_truthy (s : option Z) : option Z :=
  match s with
  | Some z => if Z.eqb z 0 then None else Some z
  | None => None
  end.

(** ** AWS: reading a run *)

(** the [create_volume] calls of a trace, each with the id it answered *)
Definition create_volume_calls (tr : list event)
  : list (option Z * pyval * pyval * string) :=
  omap (fun ev => match ev with
                  | EvCreateVolume s z sn v => Some (s, z, sn, v)
                  | _ => None
                  end) tr.

(** the [run_instances] calls of a trace *)
Definition run_instances_calls (tr : list event)
  : list (run_args * option (list string)) :=
  omap (fun ev => match ev with
                  | EvRunInstances a r => Some (a, r)
                  | _ => None
                  end) tr.

(** [x.name if isinstance(x, cls) else x], as a value *)
Definition marshal_name (x : pyval) (cls : pyclass) : pyval :=
  match x with
  | PyObj c _ name => if subclass c cls then PyStr name else x
  | _ => x
  end.

(** [zone.name if isinstance(zone, PlacementZone) else zone] *)
Definition zone_name_of (zone : pyval) : pyval := marshal_name zone PlacementZone.

(** A source that is neither a snapshot, nor a volume, nor an image: the
    [else] branch of the service, taken in particular by [None]. *)
Definition blank_source (v : pyval) : bool :=
  negb (isinstance v Snapshot) && negb (isinstance v Volume)
  && negb (isinstance v MachineImage).

Definition is_blank (d : block_device) : bool :=
  is_volume d && blank_source (source d).

Definition non_root_volume (d : block_device) : bool :=
  is_volume d && negb (is_root d).

Definition root_volume (d : block_device) : bool :=
  is_volume d && is_root d.

Definition source_id (v : pyval) : string :=
  match v with
  | PyObj _ i _ => i
  | _ => ""
  end.

(** The descriptor a volume-backed device ends with; [vid] is the id of the
    volume created for it when its source is blank. *)
Definition volume_descriptor (d : block_device) (vid : string) : BlockDeviceType :=
  {| bd_ephemeral_name := None;
     bd_snapshot_id :=
       if isinstance (source d) Snapshot then Some (source_id (source d))
       else None;
     bd_volume_id :=
       if isinstance (source d) Snapshot then None
       else if isinstance (source d) Volume then Some (source_id (source d))
       else if isinstance (source d) MachineImage then None
       else Some vid;
     bd_delete_on_terminate := Some (delete_on_terminate d);
     bd_size := size_truthy (size d) |}.

(** the descriptor object an ephemeral device ends with *)
Definition ephemeral_descriptor (counter : nat) : BlockDeviceType :=
  set_ephemeral_name ("ephemeral" +:+ str_of_nat counter) new_bd.

(** the letters [_process_block_device_mappings] starts with *)
Definition device_letters : list string :=
  list_of_str (slice_from 6 ascii_lowercase).

(** ** Sample collaborators and inputs *)

(** an EC2 that numbers its volumes and always starts the instance asked for *)
Definition sample_create_volume
    (tr : list event) (sz : option Z) (zone snapshot : pyval) : string :=
  "vol-" +:+ str_of_nat (List.length (create_volume_calls tr)).

Definition sample_run_instances (tr : list event) (a : run_args)
  : option (list string) := Some ["i-0"].

(** an EC2 whose [run_instances] hands back nothing *)
Definition no_reservation (tr : list event) (a : run_args)
  : option (list string) := None.

Definition blank_volume (root : bool) (sz : Z) : block_device :=
  {| is_volume := true; source := PyNone; is_root := root; size := Some sz;
     delete_on_terminate := Some true |}.

Definition ephemeral_device : block_device :=
  {| is_volume := false; source := PyNone; is_root := false; size := None;
     delete_on_terminate := None |}.

Definition config_of (devices : list block_device) : launch_config :=
  {| block_devices := devices; net_ids := [] |}.

(** two root volumes without a source *)
Definition two_roots : launch_config :=
  config_of [blank_volume true 8; blank_volume true 8].

(** twenty-one volumes without a source, none of them root *)
Definition twenty_one_volumes : launch_config :=
  config_of (replicate 21 (blank_volume false 8)).

(** a root volume, a data volume and an ephemeral disk *)
Definition three_devices : launch_config :=
  config_of [blank_volume true 8; blank_volume false 20; ephemeral_device].

(** a root volume, two data volumes and an ephemeral disk *)
Definition four_devices : launch_config :=
  config_of [blank_volume true 8; blank_volume false 20; blank_volume false 30;
             ephemeral_device].

(** a provider that knows the resource [r-1], shut off, and nothing else *)
Definition sample_describe (id : string) : option os_object :=
  if String.eqb id "r-1"
  then Some {| os_id := "r-1"; os_name := "one"; os_status := "SHUTOFF";
               os_attrs := ∅ |}
  else None.

(** a payload as the provider may answer it *)
Definition sample_object (status : string) : os_object :=
  {| os_id := "r-1"; os_name := "one"; os_status := status;
     os_attrs := {[ "key_name" := "k" ]} |}.

(** ** The validation of a launch configuration *)

(** Modelled from the spec: the validation of a launch configuration.
    Launch configurations are built by [BaseLaunchConfig]
    ([cloudbridge/cloud/base.py], which [create_launch_config] instantiates),
    and that class is not in the sources at hand.  The specification,
    sections 3, 4.3 and 7: at most one entry of a launch configuration has
    isRoot = true; compiling fails with InvalidConfigurationError if more
    than one entry has; the error is raised before any remote call. *)
Inductive config_error := InvalidConfigurationError.

Definition validate (cfg : launch_config) : option config_error :=
  if decide (1 < List.length (List.filter is_root (block_devices cfg)))
  then Some InvalidConfigurationError
  else None.

(** ** AWS: the key pair and security group services *)

(** [AWSKeyPairService.delete], over the names of the key pairs
    [get_all_key_pairs] lists: the value returned and the positions of the
    key pairs whose [delete] was called. *)
Fixpoint keypair_delete_from (i : nat) (key_pairs : list string)
    (name : string) : bool * list nat :=
  match key_pairs with
  | [] => (true, [])
  | kp :: rest =>
      if String.eqb kp name then (true, [i])
      else keypair_delete_from (S i) rest name
  end.

Definition AWSKeyPairService_delete (key_pairs : list string) (name : string)
  : bool * list nat :=
  keypair_delete_from 0 key_pairs name.

(** The loop of [AWSSecurityGroupService.delete] over the groups listed:
    [deletable sg] is false when [sg.delete()] raises [EC2ResponseError].
    The result is the value returned and the groups whose [delete] was
    called. *)
Fixpoint delete_groups (deletable : string -> bool) (groups : list string)
  : bool * list string :=
  match groups with
  | [] => (true, [])
  | sg :: rest =>
      if deletable sg then
        let '(result, called) := delete_groups deletable rest in
        (result, sg :: called)
      else (false, [sg])
  end.

(** [AWSSecurityGroupService.delete]; [listing] is what
    [get_all_security_groups(group_ids=[group_id])] answers, [None] when it
    raises [EC2ResponseError]. *)
Definition AWSSecurityGroupService_delete
    (listing : list string -> option (list string))
    (deletable : string -> bool) (group_id : string) : bool * list string :=
  match listing [group_id] with
  | Some groups => delete_groups deletable groups
  | None => (true, [])
  end.

(** ** AWS: more on reading a run *)

(** the zone and the snapshot of a [create_volume] call *)
Definition call_zone (c : option Z * pyval * pyval * string) : pyval := c.1.1.2.
Definition call_snapshot (c : option Z * pyval * pyval * string) : pyval := c.1.2.

(** An event of the compilation of a launch configuration for [zone]:
    a volume created in that zone from no snapshot, or its naming. *)
Definition compile_event (zone : pyval) (ev : event) : Prop :=
  match ev with
  | EvCreateVolume _ z sn _ => z = zone_name_of zone /\ sn = PyNone
  | EvSetName cls _ name => cls = AWSVolume /\ name = ""
  | EvRunInstances _ _ => False
  end.

(** addresses that start with [1] are private, those that start with [8]
    are public, and the others do not parse *)
Definition sample_is_private (address : string) : option bool :=
  if String.prefix "1" address then Some true
  else if String.prefix "8" address then Some false
  else None.

(** a snapshot-backed data volume between a root volume and a blank one *)
Definition snapshot_device : block_device :=
  {| is_volume := true; source := PyObj AWSSnapshot "snap-7" "nightly";
     is_root := false; size := Some 0%Z; delete_on_terminate := Some false |}.

Definition volume_device : block_device :=
  {| is_volume := true; source := PyObj AWSVolume "vol-9" "data";
     is_root := false; size := None; delete_on_terminate := None |}.

Definition image_device : block_device :=
  {| is_volume := true; source := PyObj MachineImage "ami-3" "base";
     is_root := false; size := Some 5%Z; delete_on_terminate := Some true |}.

Definition sourced_devices : launch_config :=
  config_of [blank_volume true 8; snapshot_device; volume_device;
             image_device; blank_volume false 20].

(** ** AWS: the services *)

Section AWSServices.
(** The EC2 connection.  What a call answers may depend on the calls made
    before it.  A request the provider refuses would end the run with the
    provider's own exception, at that call; the runs studied here are those
    in which the provider answers. *)
Variable ec2_create_volume :
  list event -> option Z -> pyval -> pyval -> string.
Variable ec2_run_instances :
  list event -> run_args -> option (list string).

(** [self.provider.ec2_conn.create_volume(size, zone_name, snapshot=...)] *)
Definition ec2_conn_create_volume (size : option Z) (zone_name snapshot : pyval)
  : M string :=
  fun w =>
    let vid := ec2_create_volume (trace w) size zone_name snapshot in
    (inr vid,
     World (objs w) (trace w ++ [EvCreateVolume size zone_name snapshot vid])).

(** [self.provider.ec2_conn.run_instances(...)] *)
Definition ec2_conn_run_instances (args : run_args) : M (option (list string)) :=
  fun w =>
    let r := ec2_run_instances (trace w) args in
    (inr r, World (objs w) (trace w ++ [EvRunInstances args r])).

(** [AWSVolumeService.create] *)
Definition AWSVolumeService_create
    (name : string) (size : option Z) (zone snapshot : pyval) : M pyval :=
  zone_name ← (if isinstance zone PlacementZone
               then PyStr <$> getattr_name zone else mret zone);
  snapshot_id ← (if isinstance zone AWSSnapshot && truthy snapshot
                 then PyStr <$> getattr_id snapshot else mret snapshot);
  ec2_vol ← ec2_conn_create_volume size zone_name snapshot_id;
  (* cb_vol = AWSVolume(self.provider, ec2_vol); cb_vol.name = name *)
  emit (EvSetName AWSVolume ec2_vol name);;
  mret (PyObj AWSVolume ec2_vol name).

(** The local variables of the loop of [_process_block_device_mappings]:
    the mapping (each slot refers to a descriptor object), the iterator and
    the counter. *)
Record locals := Locals {
  bdm : gmap string nat;
  next_letter : list string;
  ephemeral_counter : nat
}.

(** the body of [for device in launch_config.block_devices] *)
Definition process_device (zone : pyval) (device : block_device) (l : locals)
  : M locals :=
  bd_type ← new_BlockDeviceType;
  if is_volume device then
    l' ← (if is_root device then
            mret (Locals (<["/dev/sda1" := bd_type]> (bdm l))
                         (next_letter l) (ephemeral_counter l))
          else
            match next (next_letter l) with
            | inl e => raise e
            | inr (c, rest) =>
                mret (Locals (<["sd" +:+ c := bd_type]> (bdm l))
                             rest (ephemeral_counter l))
            end);
    (if isinstance (source device) Snapshot then
       i ← getattr_id (source device);
       setattr bd_type (set_snapshot_id i)
     else if isinstance (source device) Volume then
       i ← getattr_id (source device);
       setattr bd_type (set_volume_id i)
     else if isinstance (source device) MachineImage then
       mret tt
     else
       new_vol ← AWSVolumeService_create "" (size device) zone PyNone;
       i ← getattr_id new_vol;
       setattr bd_type (set_volume_id i));;
    setattr bd_type (set_delete_on_terminate (delete_on_terminate device));;
    match size_truthy (size device) with
    | Some z => setattr bd_type (set_size z)
    | None => mret tt
    end;;
    mret l'
  else
    setattr bd_type
      (set_ephemeral_name ("ephemeral" +:+ str_of_nat (ephemeral_counter l)));;
    mret l.

Fixpoint for_each_device (zone : pyval) (devices : list block_device)
    (l : locals) : M locals :=
  match devices with
  | [] => mret l
  | device :: rest =>
      l' ← process_device zone device l;
      for_each_device zone rest l'
  end.

(** [AWSInstanceService._process_block_device_mappings]; the result is the
    mapping object. *)
Definition _process_block_device_mappings
    (launch_config : launch_config) (zone : pyval) : M (gmap string nat) :=
  l ← for_each_device zone (block_devices launch_config)
        {| bdm := ∅;
           next_letter := device_letters;
           ephemeral_counter := 0 |};
  mret (bdm l).

(** [AWSInstanceService._get_net_id] *)
Definition _get_net_id (launch_config : launch_config) : pyval :=
  match net_ids launch_config with
  | n :: _ => PyStr n
  | [] => PyNone
  end.

(** The descriptors a mapping refers to, slot by slot. *)
Definition resolve (m : gmap string nat) : M (gmap string BlockDeviceType) :=
  fun w => (inr (omap (fun r => objs w !! r) m), w).

(** [x.attr if isinstance(x, cls) else x] *)
Definition unwrap (attr : pyval -> M string) (x : pyval) (cls : pyclass)
  : M pyval :=
  if isinstance x cls then PyStr <$> attr x else mret x.

(** [AWSInstanceService.create] *)
Definition AWSInstanceService_create
    (name : string) (image instance_type zone keypair : pyval)
    (security_groups : option sg_list) (user_data : pyval)
    (launch_config : option launch_config) : M pyval :=
  image_id ← unwrap getattr_id image MachineImage;
  instance_size ← unwrap getattr_name instance_type InstanceType;
  zone_name ← unwrap getattr_name zone PlacementZone;
  keypair_name ← unwrap getattr_name keypair KeyPair;
  let security_groups_list :=
    match security_groups with
    | Some (SGObjects ((sg0 :: _) as sgs)) =>
        (* [sg.name for sg in security_groups] *)
        Some (snd <$> sgs)
    | Some (SGNames ((n0 :: _) as names)) => Some names
    | _ => None
    end in
  '(bdm, net_id) ←
    match launch_config with
    | Some lc =>
        bdm ← _process_block_device_mappings lc zone_name;
        plan ← resolve bdm;
        mret (Some plan, _get_net_id lc)
    | None => mret (None, PyNone)
    end;
  reservation ← ec2_conn_run_instances
    {| image_id := image_id; instance_type := instance_size;
       min_count := 1; max_count := 1; placement := zone_name;
       key_name := keypair_name; security_groups := security_groups_list;
       user_data := user_data; block_device_map := bdm;
       subnet_id := net_id |};
  match reservation with
  | Some instances =>
      match instances with
      | i0 :: _ =>
          (* instance = AWSInstance(...); instance.name = name *)
          emit (EvSetName AWSInstance i0 name);;
          mret (PyObj AWSInstance i0 name)
      | [] => raise IndexError
      end
  | None =>
      (* [instance] was never bound *)
      raise UnboundLocalError
  end.

(** Modelled from the spec: [compile], section 4.3 of the specification.
    The validation comes first; a configuration that passes it goes through
    [_process_block_device_mappings], which is the code at hand. *)
Definition compile (cfg : launch_config) (zone : pyval) (w : world)
  : (config_error + (exn + gmap string nat)) * world :=
  match validate cfg with
  | Some e => (inl e, w)
  | None =>
      let '(result, w') := _process_block_device_mappings cfg zone w in
      (inr result, w')
  end.

(** *** The loop, one device at a time

    [loop_run zone devices l w res]: from the locals [l] and the world [w],
    the loop over [devices] ends in [res].  Each rule is one way through
    the body. *)
Definition device_events (zone : pyval) (d : block_device) (tr : list event)
  : list event :=
  if blank_source (source d) then
    let vid := ec2_create_volume tr (size d) (zone_name_of zone) PyNone in
    [EvCreateVolume (size d) (zone_name_of zone) PyNone vid;
     EvSetName AWSVolume vid ""]
  else [].

Definition after_volume (zone : pyval) (d : block_device) (w : world) : world :=
  World
    (objs w ++
       [volume_descriptor d
          (ec2_create_volume (trace w) (size d) (zone_name_of zone) PyNone)])
    (trace w ++ device_events zone d (trace w)).

Inductive loop_run (zone : pyval)
  : list block_device -> locals -> world -> (exn + locals) * world -> Prop :=
| run_done l w :
    loop_run zone [] l w (inr l, w)
| run_ephemeral d ds l w res :
    is_volume d = false ->
    loop_run zone ds l
      (World (objs w ++ [ephemeral_descriptor (ephemeral_counter l)]) (trace w))
      res ->
    loop_run zone (d :: ds) l w res
| run_root d ds l w res :
    is_volume d = true -> is_root d = true ->
    loop_run zone ds
      (Locals (<["/dev/sda1" := List.length (objs w)]> (bdm l))
              (next_letter l) (ephemeral_counter l))
      (after_volume zone d w) res ->
    loop_run zone (d :: ds) l w res
| run_letter d ds l w c rest res :
    is_volume d = true -> is_root d = false ->
    next_letter l = c :: rest ->
    loop_run zone ds
      (Locals (<["sd" +:+ c := List.length (objs w)]> (bdm l))
              rest (ephemeral_counter l))
      (after_volume zone d w) res ->
    loop_run zone (d :: ds) l w res
| run_exhausted d ds l w :
    is_volume d = true -> is_root d = false ->
    next_letter l = [] ->
    loop_run zone (d :: ds) l w
      (inl StopIteration, World (objs w ++ [new_bd]) (trace w)).

(** *** [AWSInstanceService.create], from the [run_instances] call on *)
Definition launch_args (image instance_type zone keypair : pyval)
    (security_groups : option sg_list) (user_data : pyval)
    (bdm : option (gmap string BlockDeviceType)) (net_id : pyval) : run_args :=
  {| image_id := if isinstance image MachineImage
                 then PyStr (source_id image) else image;
     instance_type := marshal_name instance_type InstanceType;
     min_count := 1; max_count := 1;
     placement := zone_name_of zone;
     key_name := marshal_name keypair KeyPair;
     security_groups :=
       match security_groups with
       | Some (SGObjects ((sg0 :: _) as sgs)) => Some (snd <$> sgs)
       | Some (SGNames ((n0 :: _) as names)) => Some names
       | _ => None
       end;
     user_data := user_data; block_device_map := bdm; subnet_id := net_id |}.

Definition launch (name : string) (args : run_args) (w : world)
  : (exn + pyval) * world :=
  let r := ec2_run_instances (trace w) args in
  let w' := World (objs w) (trace w ++ [EvRunInstances args r]) in
  match r with
  | Some (i0 :: _) =>
      (inr (PyObj AWSInstance i0 name),
       World (objs w') (trace w' ++ [EvSetName AWSInstance i0 name]))
  | Some [] => (inl IndexError, w')
  | None => (inl UnboundLocalError, w')
  end.

(** The slot the loop gives the volume device [d] that comes after the
    devices [pre], when it starts with [letters]. *)
Definition slot_of (letters : list string) (pre : list block_device)
    (d : block_device) : string :=
  if is_root d then "/dev/sda1"
  else "sd" +:+ default ""
                  (letters !! List.length (List.filter non_root_volume pre)).

(** *** One pass through the loop body *)

Example device_letters_value :
  device_letters
  = ["g"; "h"; "i"; "j"; "k"; "l"; "m"; "n"; "o"; "p"; "q"; "r"; "s"; "t";
     "u"; "v"; "w"; "x"; "y"; "z"].
Proof. reflexivity. Qed.

Example ephemeral_descriptor_value :
  ephemeral_descriptor 0
  = {| bd_ephemeral_name := Some "ephemeral0"; bd_snapshot_id := None;
       bd_volume_id := None; bd_delete_on_terminate := None;
       bd_size := None |}.
Proof. reflexivity. Qed.

Ltac run_monad :=
  repeat (unfold mbind, M_bind, mret, M_ret, fmap, M_fmap, raise, emit,
            setattr, ec2_conn_create_volume, ec2_conn_run_instances; cbn).

Lemma bind_run {A B} (m : M A) (f : A -> M B) (w : world) :
  (m ≫= f) w =
    match m w with
    | (inr a, w') => f a w'
    | (inl e, w') => (inl e, w')
    end.
Proof. reflexivity. Qed.

Lemma alter_last {A} (f : A -> A) (l : list A) (x : A) :
  alter f (List.length l) (l ++ [x]) = l ++ [f x].
Proof.
  replace (List.length l) with (List.length l + 0) by lia.
  by rewrite alter_app_r.
Qed.

Lemma process_device_ephemeral zone d l w :
  is_volume d = false ->
  process_device zone d l w =
    (inr l,
     World (objs w ++ [ephemeral_descriptor (ephemeral_counter l)]) (trace w)).
Proof.
  intros Hv. unfold process_device, mbind, M_bind, new_BlockDeviceType.
  rewrite Hv. cbn. by rewrite alter_last.
Qed.

Lemma process_device_exhausted zone d l w :
  is_volume d = true -> is_root d = false -> next_letter l = [] ->
  process_device zone d l w =
    (inl StopIteration, World (objs w ++ [new_bd]) (trace w)).
Proof.
  intros Hv Hr Hn. unfold process_device, mbind, M_bind, new_BlockDeviceType.
  rewrite Hv, Hr, Hn. reflexivity.
Qed.

(** [AWSVolumeService.create] when the condition on [zone] and [snapshot]
    is false: the snapshot goes to EC2 as it came. *)
Lemma volume_create_forward name sz zone snapshot w :
  isinstance zone AWSSnapshot && truthy snapshot = false ->
  AWSVolumeService_create name sz zone snapshot w =
    let vid := ec2_create_volume (trace w) sz (zone_name_of zone) snapshot in
    (inr (PyObj AWSVolume vid name),
     World (objs w)
       (trace w ++ [EvCreateVolume sz (zone_name_of zone) snapshot vid;
                    EvSetName AWSVolume vid name])).
Proof.
  intros Hc. unfold AWSVolumeService_create. rewrite Hc.
  destruct w as [os tr].
  destruct zone as [|s|cls i n]; cbn; [| |destruct (subclass cls PlacementZone)];
    run_monad; by rewrite <- app_assoc.
Qed.

(** what the body does to the descriptor once the slot is assigned *)
Lemma fill_descriptor zone d (l' : locals) os tr :
  (((if isinstance (source d) Snapshot then
       i ← getattr_id (source d);
       setattr (List.length os) (set_snapshot_id i)
     else if isinstance (source d) Volume then
       i ← getattr_id (source d);
       setattr (List.length os) (set_volume_id i)
     else if isinstance (source d) MachineImage then
       mret tt
     else
       new_vol ← AWSVolumeService_create "" (size d) zone PyNone;
       i ← getattr_id new_vol;
       setattr (List.length os) (set_volume_id i));;
    setattr (List.length os) (set_delete_on_terminate (delete_on_terminate d));;
    match size_truthy (size d) with
    | Some z => setattr (List.length os) (set_size z)
    | None => mret tt
    end;;
    mret l') : M locals) (World (os ++ [new_bd]) tr)
  = (inr l', after_volume zone d (World os tr)).
Proof.
  unfold after_volume, device_events, volume_descriptor, blank_source.
  destruct d as [v src r sz dot]; cbn [source size delete_on_terminate objs trace].
  destruct src as [|s|cls i n]; [| |destruct cls];
    destruct sz as [z|]; cbn; try destruct (Z.eqb z 0); cbn.
  all: rewrite !bind_run;
    rewrite ?volume_create_forward by apply andb_false_r;
    run_monad; by rewrite ?alter_last, ?app_nil_r.
Qed.

Lemma process_device_root zone d l w :
  is_volume d = true -> is_root d = true ->
  process_device zone d l w =
    (inr (Locals (<["/dev/sda1" := List.length (objs w)]> (bdm l))
                 (next_letter l) (ephemeral_counter l)),
     after_volume zone d w).
Proof.
  intros Hv Hr. destruct w as [os tr].
  unfold process_device. rewrite bind_run. cbn [new_BlockDeviceType objs trace].
  rewrite Hv, Hr, bind_run. apply fill_descriptor.
Qed.

Lemma process_device_letter zone d l w c rest :
  is_volume d = true -> is_root d = false -> next_letter l = c :: rest ->
  process_device zone d l w =
    (inr (Locals (<["sd" +:+ c := List.length (objs w)]> (bdm l))
                 rest (ephemeral_counter l)),
     after_volume zone d w).
Proof.
  intros Hv Hr Hn. destruct w as [os tr].
  unfold process_device. rewrite bind_run. cbn [new_BlockDeviceType objs trace].
  rewrite Hv, Hr, Hn, bind_run. apply fill_descriptor.
Qed.

(** The loop of the service runs by the rules of [loop_run]. *)
Lemma loop_run_complete zone ds : forall l w,
  loop_run zone ds l w (for_each_device zone ds l w).
Proof.
  induction ds as [|d ds IH]; intros l w; cbn [for_each_device].
  - constructor.
  - rewrite bind_run.
    destruct (is_volume d) eqn:Hv.
    + destruct (is_root d) eqn:Hr.
      * rewrite process_device_root by done. by apply run_root.
      * destruct (next_letter l) as [|c rest] eqn:Hn.
        -- rewrite process_device_exhausted by done. by apply run_exhausted.
        -- rewrite (process_device_letter _ _ _ _ c rest) by done.
           by eapply run_letter.
    + rewrite process_device_ephemeral by done. by apply run_ephemeral.
Qed.

(** *** What the loop leaves behind *)

Lemma run_instances_calls_app tr1 tr2 :
  run_instances_calls (tr1 ++ tr2)
  = run_instances_calls tr1 ++ run_instances_calls tr2.
Proof. apply omap_app. Qed.

Lemma create_volume_calls_app tr1 tr2 :
  create_volume_calls (tr1 ++ tr2)
  = create_volume_calls tr1 ++ create_volume_calls tr2.
Proof. apply omap_app. Qed.

Lemma device_events_launch zone d tr :
  run_instances_calls (device_events zone d tr) = [].
Proof. unfold device_events. by destruct (blank_source _). Qed.

Lemma device_events_volume zone d tr :
  create_volume_calls (device_events zone d tr)
  = if blank_source (source d)
    then [(size d, zone_name_of zone, PyNone,
           ec2_create_volume tr (size d) (zone_name_of zone) PyNone)]
    else [].
Proof. unfold device_events. by destruct (blank_source _). Qed.

(** The loop never launches an instance, whether it ends well or not. *)
Lemma loop_run_launch_calls zone ds l w res :
  loop_run zone ds l w res ->
  run_instances_calls (trace res.2) = run_instances_calls (trace w).
Proof.
  induction 1 as [| | ? ? ? ? ? ? ? ? IH | ? ? ? ? ? ? ? ? ? ? ? IH |];
    cbn in *; try done.
  all: by rewrite IH, run_instances_calls_app, device_events_launch, app_nil_r.
Qed.

(** Objects are only ever added to the store, one per device. *)
Lemma loop_run_objs zone ds l w res :
  loop_run zone ds l w res ->
  exists new, objs res.2 = objs w ++ new
    /\ (forall l', res.1 = inr l' -> List.length new = List.length ds).
Proof.
  induction 1 as [| ? ? ? ? ? ? ? IH | ? ? ? ? ? ? ? ? IH
                 | ? ? ? ? ? ? ? ? ? ? ? IH |]; cbn in *.
  - exists []. by rewrite app_nil_r.
  - destruct IH as (new & -> & Hlen). eexists. rewrite <- app_assoc.
    split; [done|]. intros l' Hl. cbn. by rewrite (Hlen l').
  - destruct IH as (new & -> & Hlen). eexists. rewrite <- app_assoc.
    split; [done|]. intros l' Hl. cbn. by rewrite (Hlen l').
  - destruct IH as (new & -> & Hlen). eexists. rewrite <- app_assoc.
    split; [done|]. intros l' Hl. cbn. by rewrite (Hlen l').
  - eexists. split; [done|]. intros l' [=].
Qed.

(** With a letter left for every non-root volume, the loop ends well. *)
Lemma loop_run_succeeds zone ds l w res :
  loop_run zone ds l w res ->
  List.length (List.filter non_root_volume ds) <= List.length (next_letter l) ->
  exists l', res.1 = inr l'.
Proof.
  unfold non_root_volume.
  induction 1 as [| ? ? ? ? ? Hv ? IH | ? ? ? ? ? Hv Hr ? IH
                 | ? ? ? ? ? ? ? Hv Hr Hn ? IH | ? ? ? ? Hv Hr Hn];
    cbn; rewrite ?Hv, ?Hr; cbn; intros Hlen.
  - by eexists.
  - by apply IH.
  - by apply IH.
  - apply IH. rewrite Hn in Hlen. cbn in *. lia.
  - rewrite Hn in Hlen. cbn in Hlen. lia.
Qed.

(** The letters used are the first ones, one per non-root volume; the
    ephemeral counter is never advanced. *)
Lemma loop_run_locals zone ds l w res :
  loop_run zone ds l w res -> forall l', res.1 = inr l' ->
  next_letter l'
    = drop (List.length (List.filter non_root_volume ds)) (next_letter l)
  /\ ephemeral_counter l' = ephemeral_counter l.
Proof.
  unfold non_root_volume.
  induction 1 as [| ? ? ? ? ? Hv ? IH | ? ? ? ? ? Hv Hr ? IH
                 | ? ? ? ? ? ? ? Hv Hr Hn ? IH | ? ? ? ? Hv Hr Hn];
    cbn; rewrite ?Hv, ?Hr; cbn; intros l' Hl.
  - by injection Hl as ->.
  - by apply IH.
  - by apply IH.
  - rewrite Hn. by apply IH.
  - done.
Qed.

(** One [create_volume] call for each blank volume device, in order, with
    the device's size, the zone, and no snapshot. *)
Lemma loop_run_volume_calls zone ds l w res :
  loop_run zone ds l w res -> forall l', res.1 = inr l' ->
  exists calls,
    create_volume_calls (trace res.2) = create_volume_calls (trace w) ++ calls
    /\ fst <$> calls
       = (fun d => (size d, zone_name_of zone, PyNone))
           <$> List.filter is_blank ds.
Proof.
  unfold is_blank.
  induction 1 as [| ? ? ? ? ? Hv ? IH | d ? ? ? ? Hv Hr ? IH
                 | d ? ? ? ? ? ? Hv Hr Hn ? IH | ? ? ? ? Hv Hr Hn];
    cbn; rewrite ?Hv; cbn; intros l' Hl.
  - exists []. by rewrite app_nil_r.
  - by apply (IH l').
  - destruct (IH l' Hl) as (calls & -> & Hargs). cbn.
    rewrite create_volume_calls_app, device_events_volume, <- app_assoc.
    eexists. split; [done|]. rewrite fmap_app, Hargs.
    by destruct (blank_source (source d)).
  - destruct (IH l' Hl) as (calls & -> & Hargs). cbn.
    rewrite create_volume_calls_app, device_events_volume, <- app_assoc.
    eexists. split; [done|]. rewrite fmap_app, Hargs.
    by destruct (blank_source (source d)).
  - done.
Qed.

(** A slot stays as it is unless the loop assigns it again: the root slot is
    assigned by root volumes, a lettered slot by a letter still to come. *)
Lemma loop_run_slot zone ds l w res :
  loop_run zone ds l w res -> forall l' k, res.1 = inr l' ->
  (k = "/dev/sda1" -> List.filter root_volume ds = []) ->
  (forall c, c ∈ next_letter l -> k <> "sd" +:+ c) ->
  bdm l' !! k = bdm l !! k.
Proof.
  unfold root_volume.
  induction 1 as [| ? ? ? ? ? Hv ? IH | ? ? ? ? ? Hv Hr ? IH
                 | ? ? ? ? ? ? ? Hv Hr Hn ? IH | ? ? ? ? Hv Hr Hn];
    cbn; rewrite ?Hv, ?Hr; cbn; intros l' k Hl Hroot Hletter.
  - by injection Hl as ->.
  - by apply IH.
  - rewrite (IH l' k) by (done || (intros ->; by specialize (Hroot eq_refl))).
    cbn. apply lookup_insert_ne. intros <-. by specialize (Hroot eq_refl).
  - rewrite Hn in Hletter. rewrite (IH l' k); [| done | done |].
    + cbn. apply lookup_insert_ne. intros <-.
      apply (Hletter c); [left | done].
    + cbn. intros c' Hc'. apply Hletter. by right.
  - done.
Qed.

(** Ephemeral devices leave the mapping, the iterator, the counter and the
    trace as they were: each only adds an object to the store. *)
Lemma loop_run_ephemeral zone ds l w res :
  loop_run zone ds l w res ->
  Forall (fun d => is_volume d = false) ds ->
  res = (inr l,
         World (objs w ++ replicate (List.length ds)
                            (ephemeral_descriptor (ephemeral_counter l)))
               (trace w)).
Proof.
  induction 1 as [| ? ? ? ? ? Hv ? IH | ? ? ? ? ? Hv Hr ? IH
                 | ? ? ? ? ? ? ? Hv Hr Hn ? IH | ? ? ? ? Hv Hr Hn];
    intros Hall.
  - cbn. destruct w. by rewrite app_nil_r.
  - apply Forall_cons in Hall as [_ Hall]. rewrite (IH Hall). cbn.
    by rewrite <- app_assoc.
  - apply Forall_cons in Hall as [Hd _]. congruence.
  - apply Forall_cons in Hall as [Hd _]. congruence.
  - apply Forall_cons in Hall as [Hd _]. congruence.
Qed.

(** *** The launch, in two steps *)

Lemma unwrap_name x cls w :
  unwrap getattr_name x cls w = (inr (marshal_name x cls), w).
Proof.
  unfold unwrap, marshal_name.
  destruct x as [|s|c i n]; cbn; try done. by destruct (subclass c cls).
Qed.

Lemma unwrap_id x cls w :
  unwrap getattr_id x cls w
  = (inr (if isinstance x cls then PyStr (source_id x) else x), w).
Proof.
  unfold unwrap.
  destruct x as [|s|c i n]; cbn; try done. by destruct (subclass c cls).
Qed.

Lemma process_block_device_mappings_run cfg zone w :
  _process_block_device_mappings cfg zone w =
    match for_each_device zone (block_devices cfg)
            {| bdm := ∅; next_letter := device_letters;
               ephemeral_counter := 0 |} w with
    | (inr l, w') => (inr (bdm l), w')
    | (inl e, w') => (inl e, w')
    end.
Proof.
  unfold _process_block_device_mappings. rewrite bind_run.
  by destruct (for_each_device _ _ _ _) as [[e|l] w'].
Qed.

Lemma create_run name image instance_type zone keypair sgs user_data lc w :
  AWSInstanceService_create name image instance_type zone keypair sgs
    user_data lc w =
    match lc with
    | None =>
        launch name
          (launch_args image instance_type zone keypair sgs user_data
             None PyNone) w
    | Some c =>
        match _process_block_device_mappings c (zone_name_of zone) w with
        | (inr m, w1) =>
            launch name
              (launch_args image instance_type zone keypair sgs user_data
                 (Some (omap (fun r => objs w1 !! r) m)) (_get_net_id c)) w1
        | (inl e, w1) => (inl e, w1)
        end
    end.
Proof.
  unfold AWSInstanceService_create.
  rewrite bind_run, unwrap_id, bind_run, unwrap_name, bind_run, unwrap_name,
    bind_run, unwrap_name, bind_run.
  fold (zone_name_of zone).
  destruct lc as [c|].
  - rewrite bind_run.
    destruct (_process_block_device_mappings c (zone_name_of zone) w)
      as [[e|m] w1]; [done|].
    rewrite bind_run. cbn [resolve]. unfold launch, launch_args.
    run_monad.
    destruct (ec2_run_instances _ _) as [[|i0 il]|]; run_monad;
      by rewrite <- ?app_assoc.
  - unfold launch, launch_args. run_monad.
    destruct (ec2_run_instances _ _) as [[|i0 il]|]; run_monad;
      by rewrite <- ?app_assoc.
Qed.

(** [launch] makes one [run_instances] call, and without a reservation it
    ends in [UnboundLocalError]. *)
Lemma launch_calls name args w :
  run_instances_calls (trace (launch name args w).2)
  = run_instances_calls (trace w)
      ++ [(args, ec2_run_instances (trace w) args)].
Proof.
  unfold launch. destruct (ec2_run_instances _ _) as [[|i0 il]|]; cbn;
    rewrite ?run_instances_calls_app; cbn; by rewrite ?app_nil_r.
Qed.

Lemma launch_unbound name args w :
  ec2_run_instances (trace w) args = None ->
  (launch name args w).1 = inl UnboundLocalError.
Proof. unfold launch. by intros ->. Qed.
(** *** [_process_block_device_mappings] as a whole *)

Lemma device_letters_length : List.length device_letters = 20.
Proof. reflexivity. Qed.

Lemma compile_launch_calls cfg zone w :
  run_instances_calls (trace (_process_block_device_mappings cfg zone w).2)
  = run_instances_calls (trace w).
Proof.
  rewrite process_block_device_mappings_run.
  pose proof (loop_run_launch_calls _ _ _ _ _
    (loop_run_complete zone (block_devices cfg)
       {| bdm := ∅; next_letter := device_letters; ephemeral_counter := 0 |} w))
    as H.
  by destruct (for_each_device _ _ _ _) as [[e|l] w'].
Qed.

Lemma compile_succeeds cfg zone w :
  List.length (List.filter non_root_volume (block_devices cfg)) <= 20 ->
  exists l w',
    for_each_device zone (block_devices cfg)
      {| bdm := ∅; next_letter := device_letters; ephemeral_counter := 0 |} w
    = (inr l, w').
Proof.
  intros Hlen.
  destruct (loop_run_succeeds _ _ _ _ _
    (loop_run_complete zone (block_devices cfg)
       {| bdm := ∅; next_letter := device_letters; ephemeral_counter := 0 |} w))
    as [l' Hl]; [cbn [next_letter]; by rewrite device_letters_length|].
  destruct (for_each_device _ _ _ _) as [r w']. cbn in Hl. subst r.
  by exists l', w'.
Qed.

(** *** A volume device in the middle of the list *)

Lemma for_each_device_app zone pre post : forall l w,
  for_each_device zone (pre ++ post) l w =
    match for_each_device zone pre l w with
    | (inr l1, w1) => for_each_device zone post l1 w1
    | (inl e, w1) => (inl e, w1)
    end.
Proof.
  induction pre as [|d pre IH]; intros l w; cbn [for_each_device app].
  - done.
  - rewrite !bind_run.
    destruct (process_device zone d l w) as [[e|l1] w1]; [done|]. apply IH.
Qed.

Lemma for_each_device_at zone pre d post l w l' w' :
  for_each_device zone (pre ++ d :: post) l w = (inr l', w') ->
  is_volume d = true ->
  exists l1 w1 k rest,
    for_each_device zone pre l w = (inr l1, w1)
    /\ (if is_root d then k = "/dev/sda1" /\ rest = next_letter l1
        else exists c, next_letter l1 = c :: rest /\ k = "sd" +:+ c)
    /\ for_each_device zone post
         (Locals (<[k := List.length (objs w1)]> (bdm l1)) rest
                 (ephemeral_counter l1))
         (after_volume zone d w1) = (inr l', w').
Proof.
  intros Hrun Hv. rewrite for_each_device_app in Hrun.
  destruct (for_each_device zone pre l w) as [[e|l1] w1]; [done|].
  cbn [for_each_device] in Hrun. rewrite bind_run in Hrun.
  exists l1, w1. destruct (is_root d) eqn:Hr.
  - rewrite process_device_root in Hrun by done.
    exists "/dev/sda1", (next_letter l1). by split_and!.
  - destruct (next_letter l1) as [|c rest] eqn:Hn.
    + by rewrite process_device_exhausted in Hrun.
    + rewrite (process_device_letter _ _ _ _ c rest) in Hrun by done.
      exists ("sd" +:+ c), rest. split_and!; [done| |done]. by exists c.
Qed.

Lemma run_of zone ds l w res :
  for_each_device zone ds l w = res -> loop_run zone ds l w res.
Proof. intros <-. apply loop_run_complete. Qed.

(** The slot of a volume device refers, at the end, to the object made for
    that device, unless a later root volume took the root slot. *)
Lemma device_slot zone pre d post l w l' w' :
  for_each_device zone (pre ++ d :: post) l w = (inr l', w') ->
  is_volume d = true ->
  NoDup (next_letter l) ->
  (is_root d = true -> List.filter root_volume post = []) ->
  exists l1 w1,
    for_each_device zone pre l w = (inr l1, w1)
    /\ List.length (objs w1) = List.length (objs w) + List.length pre
    /\ bdm l' !! slot_of (next_letter l) pre d = Some (List.length (objs w1))
    /\ objs w' !! List.length (objs w1)
       = Some (volume_descriptor d
                 (ec2_create_volume (trace w1) (size d) (zone_name_of zone)
                    PyNone)).
Proof.
  intros Hrun Hv Hnd Hroot.
  destruct (for_each_device_at _ _ _ _ _ _ _ _ Hrun Hv)
    as (l1 & w1 & k & rest & Hpre & Hk & Hpost).
  exists l1, w1. apply run_of in Hpost.
  pose proof (run_of _ _ _ _ _ Hpre) as Rpre.
  destruct (loop_run_locals _ _ _ _ _ Rpre l1 eq_refl) as [Hletters _].
  destruct (loop_run_objs _ _ _ _ _ Rpre) as (new & Hobjs & Hlen).
  destruct (loop_run_objs _ _ _ _ _ Hpost) as (new' & Hobjs' & _).
  cbn in Hobjs, Hobjs', Hlen. specialize (Hlen l1 eq_refl).
  split_and!; [done|by rewrite Hobjs, length_app, Hlen| |].
  - unfold slot_of. destruct (is_root d) eqn:Hr.
    + destruct Hk as [-> ->].
      rewrite (loop_run_slot _ _ _ _ _ Hpost l' "/dev/sda1"); cbn;
        [by rewrite lookup_insert_eq|done|by auto|done].
    + destruct Hk as (c & Hn & ->). rewrite Hn in Hletters.
      assert (Hc : next_letter l
                   !! List.length (List.filter non_root_volume pre) = Some c).
      { rewrite <- (Nat.add_0_r (List.length _)), <- lookup_drop.
        by rewrite <- Hletters. }
      rewrite Hc. cbn [default from_option id].
      rewrite (loop_run_slot _ _ _ _ _ Hpost l' ("sd" +:+ c)); cbn;
        [by rewrite lookup_insert_eq|done|done|].
      intros c' Hc' Heq. apply (inj (String.app "sd")) in Heq as <-.
      rewrite <- (take_drop (List.length (List.filter non_root_volume pre))
                    (next_letter l)), <- Hletters in Hnd.
      apply NoDup_app in Hnd as (_ & _ & Hnd).
      by apply NoDup_cons in Hnd as [Hnotin _].
  - rewrite Hobjs'. cbn. rewrite <- app_assoc. cbn.
    by rewrite list_lookup_middle.
Qed.

(** The [create_volume] calls of a run, around those of one volume device. *)
Lemma device_calls zone pre d post l w l' w' :
  for_each_device zone (pre ++ d :: post) l w = (inr l', w') ->
  is_volume d = true ->
  exists l1 w1 calls_pre calls_post,
    for_each_device zone pre l w = (inr l1, w1)
    /\ create_volume_calls (trace w')
       = create_volume_calls (trace w) ++ calls_pre
         ++ (if blank_source (source d)
             then [(size d, zone_name_of zone, PyNone,
                    ec2_create_volume (trace w1) (size d) (zone_name_of zone)
                      PyNone)]
             else [])
         ++ calls_post
    /\ fst <$> calls_pre
       = (fun d' => (size d', zone_name_of zone, PyNone))
           <$> List.filter is_blank pre
    /\ fst <$> calls_post
       = (fun d' => (size d', zone_name_of zone, PyNone))
           <$> List.filter is_blank post.
Proof.
  intros Hrun Hv.
  destruct (for_each_device_at _ _ _ _ _ _ _ _ Hrun Hv)
    as (l1 & w1 & k & rest & Hpre & _ & Hpost).
  apply run_of in Hpost. pose proof (run_of _ _ _ _ _ Hpre) as Rpre.
  destruct (loop_run_volume_calls _ _ _ _ _ Rpre l1 eq_refl)
    as (calls_pre & Hcpre & Hapre).
  destruct (loop_run_volume_calls _ _ _ _ _ Hpost l' eq_refl)
    as (calls_post & Hcpost & Hapost).
  exists l1, w1, calls_pre, calls_post. split_and!; try done.
  cbn in Hcpre, Hcpost. rewrite Hcpost. cbn.
  by rewrite create_volume_calls_app, device_events_volume, Hcpre,
    <- !app_assoc.
Qed.

Lemma device_letters_NoDup : NoDup device_letters.
Proof. by apply (bool_decide_unpack _). Qed.

(** ** The claims on the AWS services *)

(** C2, as the code has it.  A launch configuration made of ephemeral devices
    only compiles to the empty mapping: a descriptor object is created for
    each device and named [ephemeral0], the counter never advancing, and none
    of them is stored in the mapping. *)
Theorem ephemeral_devices_left_out cfg zone w :
  Forall (fun d => is_volume d = false) (block_devices cfg) ->
  _process_block_device_mappings cfg zone w
  = (inr ∅,
     World (objs w ++ replicate (List.length (block_devices cfg))
                        (ephemeral_descriptor 0))
           (trace w)).
Proof.
  intros Hall. rewrite process_block_device_mappings_run.
  by rewrite (loop_run_ephemeral _ _ _ _ _ (loop_run_complete _ _ _ _) Hall).
Qed.

(** C10.  When [zone] is not an [AWSSnapshot], [AWSVolumeService.create]
    hands its [snapshot] argument to [create_volume] as it received it,
    whatever that argument is (an [AWSSnapshot] object included): the id is
    not taken out of it.  The call is made once and the volume returned
    carries the id EC2 answered and the name asked for. *)
Theorem volume_create_snapshot_unchanged name sz zone snapshot w :
  isinstance zone AWSSnapshot = false ->
  exists vid,
    AWSVolumeService_create name sz zone snapshot w
    = (inr (PyObj AWSVolume vid name),
       World (objs w)
         (trace w ++ [EvCreateVolume sz (zone_name_of zone) snapshot vid;
                      EvSetName AWSVolume vid name])).
Proof.
  intros Hz. eexists. by rewrite volume_create_forward by by rewrite Hz.
Qed.

(** C9.  When the [run_instances] call of a launch hands back no
    reservation, [AWSInstanceService.create] ends in [UnboundLocalError] (a
    [NameError]): it returns neither [None] nor an instance. *)
Theorem launch_without_reservation
    name image instance_type zone keypair sgs user_data lc w r w' a :
  AWSInstanceService_create name image instance_type zone keypair sgs
    user_data lc w = (r, w') ->
  run_instances_calls (trace w')
  = run_instances_calls (trace w) ++ [(a, None)] ->
  r = inl UnboundLocalError.
Proof.
  rewrite create_run. intros Hrun Hcalls.
  assert (Hlaunch : forall args w1,
    run_instances_calls (trace w1) = run_instances_calls (trace w) ->
    launch name args w1 = (r, w') -> r = inl UnboundLocalError).
  { intros args w1 Hw1 Hl.
    pose proof (launch_calls name args w1) as Hc.
    rewrite Hl, Hw1 in Hc. cbn in Hc. rewrite Hcalls in Hc.
    apply app_inv_head in Hc. injection Hc as _ Hnone.
    pose proof (launch_unbound name args w1 (eq_sym Hnone)) as Hr.
    by rewrite Hl in Hr. }
  destruct lc as [c|]; [|by eapply Hlaunch].
  pose proof (compile_launch_calls c (zone_name_of zone) w) as Hc.
  destruct (_process_block_device_mappings c (zone_name_of zone) w)
    as [[e|m] w1]; cbn in Hc.
  - injection Hrun as <- <-. rewrite Hc in Hcalls.
    apply (f_equal List.length) in Hcalls. rewrite length_app in Hcalls.
    cbn in Hcalls. lia.
  - by eapply Hlaunch.
Qed.

(** C6, amended.  A launch issues exactly one [run_instances] call: always
    when there is no launch configuration, and then with no block device map
    and no subnet id; and, when there is one, provided it has at most twenty
    volume devices that are not root, with the compiled mapping as one
    argument (every slot of the mapping [_process_block_device_mappings]
    returned, with the descriptor it refers to) and the first network id.
    The call is made after the compilation and is answered by EC2. *)
Theorem launch_issues_one_call
    name image instance_type zone keypair sgs user_data lc w :
  (forall c, lc = Some c ->
     List.length (List.filter non_root_volume (block_devices c)) <= 20) ->
  exists r w' a res,
    AWSInstanceService_create name image instance_type zone keypair sgs
      user_data lc w = (r, w')
    /\ run_instances_calls (trace w')
       = run_instances_calls (trace w) ++ [(a, res)]
    /\ (lc = None -> block_device_map a = None /\ subnet_id a = PyNone)
    /\ (forall c, lc = Some c ->
          exists m w1,
            _process_block_device_mappings c (zone_name_of zone) w
            = (inr m, w1)
            /\ block_device_map a = Some (omap (fun r => objs w1 !! r) m)
            /\ subnet_id a = _get_net_id c
            /\ res = ec2_run_instances (trace w1) a).
Proof.
  intros Hlen. rewrite create_run. destruct lc as [c|].
  - destruct (compile_succeeds c (zone_name_of zone) w (Hlen c eq_refl))
      as (l & w1 & Hl).
    pose proof (compile_launch_calls c (zone_name_of zone) w) as Hc.
    rewrite process_block_device_mappings_run, Hl in *. cbn in Hc.
    set (args := launch_args _ _ _ _ _ _ _ _).
    pose proof (launch_calls name args w1) as Hcalls.
    destruct (launch name args w1) as [r w'] eqn:Hlaunch.
    exists r, w', args, (ec2_run_instances (trace w1) args).
    split_and!; [done|by rewrite <- Hc|done|].
    intros c' [= <-]. exists (bdm l), w1.
    split_and!; try reflexivity.
    by rewrite process_block_device_mappings_run, Hl.
  - set (args := launch_args _ _ _ _ _ _ _ _).
    pose proof (launch_calls name args w) as Hcalls.
    destruct (launch name args w) as [r w'] eqn:Hlaunch.
    exists r, w', args, (ec2_run_instances (trace w) args).
    by split_and!.
Qed.

(** C5, amended.  In a launch configuration with at most twenty volume
    devices that are not root, a volume device that is not root and has no
    source, with a zone given, gets exactly one [create_volume] call, made
    with the device's size and the zone and no snapshot, between the calls of
    the devices before it and those of the devices after it; and the
    descriptor in its slot carries the volume id that call answered,
    together with the device's size and delete-on-terminate flag. *)
Theorem blank_volume_provisioned_once cfg zone pre d post w :
  block_devices cfg = pre ++ d :: post ->
  is_volume d = true -> is_root d = false -> source d = PyNone ->
  zone <> PyNone ->
  List.length (List.filter non_root_volume (block_devices cfg)) <= 20 ->
  exists m w' vid calls_pre calls_post r b,
    _process_block_device_mappings cfg zone w = (inr m, w')
    /\ create_volume_calls (trace w')
       = create_volume_calls (trace w) ++ calls_pre
         ++ [(size d, zone_name_of zone, PyNone, vid)] ++ calls_post
    /\ fst <$> calls_pre
       = (fun d' => (size d', zone_name_of zone, PyNone))
           <$> List.filter is_blank pre
    /\ fst <$> calls_post
       = (fun d' => (size d', zone_name_of zone, PyNone))
           <$> List.filter is_blank post
    /\ m !! slot_of device_letters pre d = Some r
    /\ r = List.length (objs w) + List.length pre
    /\ objs w' !! r = Some b
    /\ bd_volume_id b = Some vid
    /\ bd_size b = size_truthy (size d)
    /\ bd_delete_on_terminate b = Some (delete_on_terminate d).
Proof.
  intros Hcfg Hv Hr Hsrc _ Hlen.
  destruct (compile_succeeds cfg zone w Hlen) as (l' & w' & Hrun).
  rewrite process_block_device_mappings_run, Hrun. rewrite Hcfg in Hrun.
  destruct (device_slot _ _ _ _ _ _ _ _ Hrun Hv device_letters_NoDup)
    as (l1 & w1 & Hpre & Hlen1 & Hslot & Hobj); [by rewrite Hr|].
  destruct (device_calls _ _ _ _ _ _ _ _ Hrun Hv)
    as (l2 & w2 & calls_pre & calls_post & Hpre' & Hcalls & Hapre & Hapost).
  rewrite Hpre in Hpre'. injection Hpre' as <- <-.
  unfold blank_source in Hcalls. rewrite Hsrc in Hcalls. cbn in Hcalls.
  eexists (bdm l'), w', _, calls_pre, calls_post, _, _.
  split_and!; [done|exact Hcalls|done|done|exact Hslot|exact Hlen1|exact Hobj
              | | |]; cbn; by rewrite ?Hsrc.
Qed.

(** [_process_block_device_mappings] makes no check on roots of its own.
    Handed a list of devices with several roots, and at most twenty volume
    devices that are not root, it returns the mapping, after one
    [create_volume] call for every volume device without a source, root
    devices included; the root slot [/dev/sda1] ends up referring to the
    descriptor of the last root volume device. *)
Theorem multiple_roots_accepted cfg zone w :
  1 < List.length (List.filter is_root (block_devices cfg)) ->
  List.length (List.filter non_root_volume (block_devices cfg)) <= 20 ->
  exists m w' calls,
    _process_block_device_mappings cfg zone w = (inr m, w')
    /\ create_volume_calls (trace w') = create_volume_calls (trace w) ++ calls
    /\ fst <$> calls
       = (fun d => (size d, zone_name_of zone, PyNone))
           <$> List.filter is_blank (block_devices cfg)
    /\ (forall pre d post,
          block_devices cfg = pre ++ d :: post ->
          root_volume d = true -> List.filter root_volume post = [] ->
          m !! "/dev/sda1" = Some (List.length (objs w) + List.length pre)
          /\ exists vid,
               objs w' !! (List.length (objs w) + List.length pre)
               = Some (volume_descriptor d vid)).
Proof.
  intros _ Hlen.
  destruct (compile_succeeds cfg zone w Hlen) as (l' & w' & Hrun).
  rewrite process_block_device_mappings_run, Hrun.
  destruct (loop_run_volume_calls _ _ _ _ _ (run_of _ _ _ _ _ Hrun) l' eq_refl)
    as (calls & Hcalls & Hargs).
  exists (bdm l'), w', calls. split_and!; try done.
  intros pre d post Hcfg [Hv Hr]%andb_true_iff Hlast. rewrite Hcfg in Hrun.
  destruct (device_slot _ _ _ _ _ _ _ _ Hrun Hv device_letters_NoDup)
    as (l1 & w1 & Hpre & Hlen1 & Hslot & Hobj); [done|].
  unfold slot_of in Hslot. rewrite Hr in Hslot.
  rewrite <- Hlen1. split; [done|by eexists].
Qed.

(** C7, as the code has it.  For one root volume device, two volume devices
    that are not root and one ephemeral device, in this order, the mapping
    returned has three slots: [/dev/sda1] for the root device, [sdg] and
    [sdh] for the two others.  A descriptor named [ephemeral0] is made for
    the ephemeral device, and no slot refers to it. *)
Theorem mixed_devices_mapping cfg zone root v1 v2 eph w :
  block_devices cfg = [root; v1; v2; eph] ->
  root_volume root = true ->
  non_root_volume v1 = true -> non_root_volume v2 = true ->
  is_volume eph = false ->
  exists w' vid0 vid1 vid2,
    _process_block_device_mappings cfg zone w
    = (inr (<["sdh" := List.length (objs w) + 2]>
              (<["sdg" := List.length (objs w) + 1]>
                 (<["/dev/sda1" := List.length (objs w)]> ∅))), w')
    /\ objs w'
       = objs w ++ [volume_descriptor root vid0; volume_descriptor v1 vid1;
                    volume_descriptor v2 vid2; ephemeral_descriptor 0].
Proof.
  unfold root_volume, non_root_volume.
  intros Hcfg [Hv0 Hr0]%andb_true_iff [Hv1 Hr1%negb_true_iff]%andb_true_iff
    [Hv2 Hr2%negb_true_iff]%andb_true_iff Hve.
  rewrite process_block_device_mappings_run, Hcfg. cbn [for_each_device].
  rewrite bind_run, process_device_root by done.
  rewrite bind_run. erewrite process_device_letter by (done || reflexivity).
  rewrite bind_run. erewrite process_device_letter by (done || reflexivity).
  rewrite bind_run, process_device_ephemeral by done.
  cbn. rewrite !length_app. cbn. rewrite <- !app_assoc. cbn.
  replace (List.length (objs w) + 1 + 1) with (List.length (objs w) + 2)
    by lia.
  do 4 eexists. split; reflexivity.
Qed.

(** ** More on the AWS services *)

Lemma loop_run_exhausts zone ds l w res :
  loop_run zone ds l w res ->
  List.length (next_letter l) < List.length (List.filter non_root_volume ds) ->
  res.1 = inl StopIteration.
Proof.
  unfold non_root_volume.
  induction 1 as [| ? ? ? ? ? Hv ? IH | ? ? ? ? ? Hv Hr ? IH
                 | ? ? ? ? ? ? ? Hv Hr Hn ? IH | ? ? ? ? Hv Hr Hn];
    cbn; rewrite ?Hv, ?Hr; cbn; intros Hlen.
  - lia.
  - by apply IH.
  - by apply IH.
  - apply IH. rewrite Hn in Hlen. cbn in *. lia.
  - done.
Qed.

(** X1.  [_process_block_device_mappings] returns a mapping exactly when the
    configuration has at most twenty volume devices that are not root; the
    only exception it raises itself is [StopIteration]. *)
Theorem compile_outcome cfg zone w :
  ((exists m, (_process_block_device_mappings cfg zone w).1 = inr m)
   <-> List.length (List.filter non_root_volume (block_devices cfg)) <= 20)
  /\ (forall e, (_process_block_device_mappings cfg zone w).1 = inl e ->
        e = StopIteration).
Proof.
  rewrite process_block_device_mappings_run.
  destruct (decide (List.length
                      (List.filter non_root_volume (block_devices cfg)) <= 20))
    as [Hle|Hgt].
  - destruct (compile_succeeds cfg zone w Hle) as (l & w' & ->). cbn.
    split; [split; eauto|]. by intros e [=].
  - pose proof (loop_run_exhausts _ _ _ _ _
      (loop_run_complete zone (block_devices cfg)
         {| bdm := ∅; next_letter := device_letters;
            ephemeral_counter := 0 |} w)) as Hex.
    cbn [next_letter] in Hex. rewrite device_letters_length in Hex.
    specialize (Hex ltac:(lia)).
    destruct (for_each_device _ _ _ _) as [[e|l] w']; cbn in Hex; [|done].
    injection Hex as ->. cbn. split; [|by intros e [= <-]].
    split; [by intros [m [=]]|done].
Qed.

(** X2.  When the twenty-first volume device that is not root is reached,
    the run ends in [StopIteration], and the volumes created for the devices
    before it have been created all the same: one [create_volume] call for
    each volume device without a source among them, none for the others. *)
Theorem letters_exhausted_after_provisioning cfg zone pre d post w :
  block_devices cfg = pre ++ d :: post ->
  non_root_volume d = true ->
  List.length (List.filter non_root_volume pre) = 20 ->
  exists w' calls,
    _process_block_device_mappings cfg zone w = (inl StopIteration, w')
    /\ create_volume_calls (trace w') = create_volume_calls (trace w) ++ calls
    /\ fst <$> calls
       = (fun d' => (size d', zone_name_of zone, PyNone))
           <$> List.filter is_blank pre.
Proof.
  intros Hcfg [Hv Hr%negb_true_iff]%andb_true_iff Hcount.
  rewrite process_block_device_mappings_run, Hcfg, for_each_device_app.
  pose proof (loop_run_complete zone pre
    {| bdm := ∅; next_letter := device_letters; ephemeral_counter := 0 |} w)
    as Rpre.
  destruct (loop_run_succeeds _ _ _ _ _ Rpre) as [l1 Hl1].
  { cbn [next_letter]. rewrite device_letters_length. lia. }
  destruct (loop_run_locals _ _ _ _ _ Rpre l1 Hl1) as [Hletters _].
  destruct (loop_run_volume_calls _ _ _ _ _ Rpre l1 Hl1)
    as (calls & Hcalls & Hargs).
  destruct (for_each_device zone pre _ w) as [r1 w1]. cbn in Hl1. subst r1.
  rewrite Hcount in Hletters. cbn in Hletters, Hcalls.
  cbn [for_each_device]. rewrite bind_run.
  rewrite process_device_exhausted by done.
  eexists _, calls. split_and!; [done|exact Hcalls|exact Hargs].
Qed.

Lemma loop_run_dom zone ds l w res :
  loop_run zone ds l w res -> forall l', res.1 = inr l' ->
  dom (bdm l')
  = dom (bdm l)
    ∪ (if existsb root_volume ds then {["/dev/sda1"]} else ∅)
    ∪ list_to_set
        (String.app "sd"
           <$> take (List.length (List.filter non_root_volume ds))
                 (next_letter l)).
Proof.
  unfold root_volume, non_root_volume.
  induction 1 as [| ? ? ? ? ? Hv ? IH | ? ? ? ? ? Hv Hr ? IH
                 | ? ? ? ? ? ? ? Hv Hr Hn ? IH | ? ? ? ? Hv Hr Hn];
    cbn; rewrite ?Hv, ?Hr; cbn; intros l' Hl.
  - injection Hl as ->. set_solver.
  - by apply IH.
  - rewrite (IH l' Hl). cbn. rewrite dom_insert_L.
    destruct (existsb _ _); set_solver.
  - rewrite (IH l' Hl), Hn. cbn. rewrite dom_insert_L.
    destruct (existsb _ _); set_solver.
  - done.
Qed.

Lemma compile_returns_bound cfg zone w m w' :
  _process_block_device_mappings cfg zone w = (inr m, w') ->
  List.length (List.filter non_root_volume (block_devices cfg)) <= 20.
Proof.
  rewrite process_block_device_mappings_run. intros Hrun.
  destruct (decide (List.length
                      (List.filter non_root_volume (block_devices cfg)) <= 20))
    as [Hle|Hgt]; [done|].
  pose proof (loop_run_exhausts _ _ _ _ _
    (loop_run_complete zone (block_devices cfg)
       {| bdm := ∅; next_letter := device_letters;
          ephemeral_counter := 0 |} w)) as Hex.
  cbn [next_letter] in Hex. rewrite device_letters_length in Hex.
  specialize (Hex ltac:(lia)).
  destruct (for_each_device _ _ _ _) as [[e|l] w1]; cbn in Hex; done.
Qed.

(** X3.  The mapping returned has one slot for each volume device that is
    not root, one more when there is a root volume device, however many, and
    none for ephemeral devices; its slots are [/dev/sda1] and [sd] followed
    by one of the letters. *)
Theorem mapping_slots cfg zone w m w' :
  _process_block_device_mappings cfg zone w = (inr m, w') ->
  base.size m
  = (if existsb root_volume (block_devices cfg) then 1 else 0)
    + List.length (List.filter non_root_volume (block_devices cfg))
  /\ (forall k, is_Some (m !! k) ->
        k = "/dev/sda1" \/ exists c, c ∈ device_letters /\ k = "sd" +:+ c).
Proof.
  intros Hrun.
  pose proof (compile_returns_bound cfg zone w m w' Hrun) as Hle.
  rewrite process_block_device_mappings_run in Hrun.
  destruct (for_each_device _ _ _ _) as [[e|l] w1] eqn:Hloop; [done|].
  injection Hrun as <- <-.
  pose proof (loop_run_dom _ _ _ _ _ (run_of _ _ _ _ _ Hloop) l eq_refl)
    as Hdom.
  cbn [bdm next_letter] in Hdom. rewrite dom_empty_L, (left_id_L ∅ (∪)) in Hdom.
  set (n := List.length (List.filter non_root_volume (block_devices cfg))) in *.
  split.
  - rewrite <- size_dom, Hdom, size_union.
    + rewrite size_list_to_set.
      * rewrite length_fmap, length_take, device_letters_length.
        destruct (existsb _ _); [rewrite size_singleton|rewrite size_empty];
          lia.
      * apply NoDup_fmap; [apply _|].
        eapply sublist_NoDup; [apply device_letters_NoDup|apply sublist_take].
    + intros k Hk1 Hk2.
      apply elem_of_list_to_set, list_elem_of_fmap in Hk2 as (c & -> & _).
      destruct (existsb _ _); [|set_solver].
      by apply elem_of_singleton in Hk1.
  - intros k Hk%elem_of_dom. rewrite Hdom in Hk.
    apply elem_of_union in Hk as [Hk|Hk].
    + left. destruct (existsb _ _); set_solver.
    + right. apply elem_of_list_to_set, list_elem_of_fmap in Hk
        as (c & -> & Hc).
      exists c. split; [|done].
      eapply elem_of_sublist; [apply Hc|apply sublist_take].
Qed.

(** A volume device of a configuration that compiles: its slot, its
    descriptor and the [create_volume] calls around its own. *)
Lemma compile_device cfg zone pre d post w :
  block_devices cfg = pre ++ d :: post ->
  is_volume d = true ->
  (is_root d = true -> List.filter root_volume post = []) ->
  List.length (List.filter non_root_volume (block_devices cfg)) <= 20 ->
  exists m w' r vid calls_pre calls_post,
    _process_block_device_mappings cfg zone w = (inr m, w')
    /\ m !! slot_of device_letters pre d = Some r
    /\ objs w' !! r = Some (volume_descriptor d vid)
    /\ create_volume_calls (trace w')
       = create_volume_calls (trace w) ++ calls_pre
         ++ (if blank_source (source d)
             then [(size d, zone_name_of zone, PyNone, vid)] else [])
         ++ calls_post
    /\ fst <$> calls_pre
       = (fun d' => (size d', zone_name_of zone, PyNone))
           <$> List.filter is_blank pre
    /\ fst <$> calls_post
       = (fun d' => (size d', zone_name_of zone, PyNone))
           <$> List.filter is_blank post.
Proof.
  intros Hcfg Hv Hlast Hlen.
  destruct (compile_succeeds cfg zone w Hlen) as (l' & w' & Hrun).
  rewrite process_block_device_mappings_run, Hrun. rewrite Hcfg in Hrun.
  destruct (device_slot _ _ _ _ _ _ _ _ Hrun Hv device_letters_NoDup Hlast)
    as (l1 & w1 & Hpre & Hlen1 & Hslot & Hobj).
  destruct (device_calls _ _ _ _ _ _ _ _ Hrun Hv)
    as (l2 & w2 & calls_pre & calls_post & Hpre' & Hcalls & Hapre & Hapost).
  rewrite Hpre in Hpre'. injection Hpre' as <- <-.
  by eexists (bdm l'), w', _, _, calls_pre, calls_post.
Qed.

(** X4.  A volume device whose source is a snapshot: the descriptor in its
    slot carries the id of that snapshot and no volume id, with the device's
    delete-on-terminate flag, and no [create_volume] call is made for it. *)
Theorem snapshot_source_kept cfg zone pre d post w cls sid sname :
  block_devices cfg = pre ++ d :: post ->
  is_volume d = true ->
  source d = PyObj cls sid sname -> subclass cls Snapshot = true ->
  (is_root d = true -> List.filter root_volume post = []) ->
  List.length (List.filter non_root_volume (block_devices cfg)) <= 20 ->
  exists m w' r b calls_pre calls_post,
    _process_block_device_mappings cfg zone w = (inr m, w')
    /\ m !! slot_of device_letters pre d = Some r
    /\ objs w' !! r = Some b
    /\ bd_snapshot_id b = Some sid /\ bd_volume_id b = None
    /\ bd_delete_on_terminate b = Some (delete_on_terminate d)
    /\ create_volume_calls (trace w')
       = create_volume_calls (trace w) ++ calls_pre ++ calls_post
    /\ fst <$> calls_pre
       = (fun d' => (size d', zone_name_of zone, PyNone))
           <$> List.filter is_blank pre
    /\ fst <$> calls_post
       = (fun d' => (size d', zone_name_of zone, PyNone))
           <$> List.filter is_blank post.
Proof.
  intros Hcfg Hv Hsrc Hcls Hlast Hlen.
  destruct (compile_device cfg zone pre d post w Hcfg Hv Hlast Hlen)
    as (m & w' & r & vid & cpre & cpost & Hrun & Hslot & Hobj & Hcalls
        & Hapre & Hapost).
  unfold blank_source in Hcalls. rewrite Hsrc in Hcalls. cbn in Hcalls.
  rewrite Hcls in Hcalls. cbn in Hcalls.
  exists m, w', r, (volume_descriptor d vid), cpre, cpost.
  split_and!; try done; unfold volume_descriptor; cbn; rewrite Hsrc; cbn;
    by rewrite Hcls.
Qed.

(** X5.  A volume device whose source is an existing volume: the descriptor
    in its slot carries the id of that volume and no snapshot id, and no
    [create_volume] call is made for it. *)
Theorem volume_source_kept cfg zone pre d post w cls vid0 vname :
  block_devices cfg = pre ++ d :: post ->
  is_volume d = true ->
  source d = PyObj cls vid0 vname -> subclass cls Volume = true ->
  (is_root d = true -> List.filter root_volume post = []) ->
  List.length (List.filter non_root_volume (block_devices cfg)) <= 20 ->
  exists m w' r b calls_pre calls_post,
    _process_block_device_mappings cfg zone w = (inr m, w')
    /\ m !! slot_of device_letters pre d = Some r
    /\ objs w' !! r = Some b
    /\ bd_volume_id b = Some vid0 /\ bd_snapshot_id b = None
    /\ create_volume_calls (trace w')
       = create_volume_calls (trace w) ++ calls_pre ++ calls_post
    /\ fst <$> calls_pre
       = (fun d' => (size d', zone_name_of zone, PyNone))
           <$> List.filter is_blank pre
    /\ fst <$> calls_post
       = (fun d' => (size d', zone_name_of zone, PyNone))
           <$> List.filter is_blank post.
Proof.
  intros Hcfg Hv Hsrc Hcls Hlast Hlen.
  destruct (compile_device cfg zone pre d post w Hcfg Hv Hlast Hlen)
    as (m & w' & r & vid & cpre & cpost & Hrun & Hslot & Hobj & Hcalls
        & Hapre & Hapost).
  assert (Hsnap : subclass cls Snapshot = false) by by destruct cls.
  unfold blank_source in Hcalls. rewrite Hsrc in Hcalls. cbn in Hcalls.
  rewrite Hcls, Hsnap in Hcalls. cbn in Hcalls.
  exists m, w', r, (volume_descriptor d vid), cpre, cpost.
  split_and!; try done; unfold volume_descriptor; cbn; rewrite Hsrc; cbn;
    by rewrite ?Hsnap, ?Hcls.
Qed.

(** X6.  A volume device whose source is a machine image: the source is
    ignored.  The device still takes a slot, whose descriptor has neither a
    snapshot id nor a volume id, and no volume is created for it. *)
Theorem image_source_ignored cfg zone pre d post w cls iid iname :
  block_devices cfg = pre ++ d :: post ->
  is_volume d = true ->
  source d = PyObj cls iid iname -> subclass cls MachineImage = true ->
  (is_root d = true -> List.filter root_volume post = []) ->
  List.length (List.filter non_root_volume (block_devices cfg)) <= 20 ->
  exists m w' r b calls_pre calls_post,
    _process_block_device_mappings cfg zone w = (inr m, w')
    /\ m !! slot_of device_letters pre d = Some r
    /\ objs w' !! r = Some b
    /\ bd_volume_id b = None /\ bd_snapshot_id b = None
    /\ bd_size b = size_truthy (size d)
    /\ create_volume_calls (trace w')
       = create_volume_calls (trace w) ++ calls_pre ++ calls_post
    /\ fst <$> calls_pre
       = (fun d' => (size d', zone_name_of zone, PyNone))
           <$> List.filter is_blank pre
    /\ fst <$> calls_post
       = (fun d' => (size d', zone_name_of zone, PyNone))
           <$> List.filter is_blank post.
Proof.
  intros Hcfg Hv Hsrc Hcls Hlast Hlen.
  destruct (compile_device cfg zone pre d post w Hcfg Hv Hlast Hlen)
    as (m & w' & r & vid & cpre & cpost & Hrun & Hslot & Hobj & Hcalls
        & Hapre & Hapost).
  assert (Hsnap : subclass cls Snapshot = false) by by destruct cls.
  assert (Hvol : subclass cls Volume = false) by by destruct cls.
  unfold blank_source in Hcalls. rewrite Hsrc in Hcalls. cbn in Hcalls.
  rewrite Hcls, Hsnap, Hvol in Hcalls. cbn in Hcalls.
  exists m, w', r, (volume_descriptor d vid), cpre, cpost.
  split_and!; try done; unfold volume_descriptor; cbn; rewrite Hsrc; cbn;
    by rewrite ?Hsnap, ?Hvol, ?Hcls.
Qed.

(** X7.  A source given as a string, a snapshot id for instance, is not
    recognised: the device is treated as one without a source.  A new volume
    is created for it, from no snapshot, and the descriptor carries the id of
    that new volume and no snapshot id. *)
Theorem string_source_provisioned cfg zone pre d post w s :
  block_devices cfg = pre ++ d :: post ->
  is_volume d = true ->
  source d = PyStr s ->
  (is_root d = true -> List.filter root_volume post = []) ->
  List.length (List.filter non_root_volume (block_devices cfg)) <= 20 ->
  exists m w' r b vid calls_pre calls_post,
    _process_block_device_mappings cfg zone w = (inr m, w')
    /\ m !! slot_of device_letters pre d = Some r
    /\ objs w' !! r = Some b
    /\ bd_volume_id b = Some vid /\ bd_snapshot_id b = None
    /\ create_volume_calls (trace w')
       = create_volume_calls (trace w) ++ calls_pre
         ++ [(size d, zone_name_of zone, PyNone, vid)] ++ calls_post
    /\ fst <$> calls_pre
       = (fun d' => (size d', zone_name_of zone, PyNone))
           <$> List.filter is_blank pre
    /\ fst <$> calls_post
       = (fun d' => (size d', zone_name_of zone, PyNone))
           <$> List.filter is_blank post.
Proof.
  intros Hcfg Hv Hsrc Hlast Hlen.
  destruct (compile_device cfg zone pre d post w Hcfg Hv Hlast Hlen)
    as (m & w' & r & vid & cpre & cpost & Hrun & Hslot & Hobj & Hcalls
        & Hapre & Hapost).
  unfold blank_source in Hcalls. rewrite Hsrc in Hcalls. cbn in Hcalls.
  exists m, w', r, (volume_descriptor d vid), vid, cpre, cpost.
  split_and!; try done; unfold volume_descriptor; cbn; by rewrite Hsrc.
Qed.

Lemma zone_name_of_idem zone : zone_name_of (zone_name_of zone) = zone_name_of zone.
Proof.
  unfold zone_name_of, marshal_name.
  destruct zone as [|s|cls i n]; try done.
  by destruct (subclass cls PlacementZone) eqn:Hc; [|rewrite Hc].
Qed.

Lemma compile_event_zone_name zone ev :
  compile_event (zone_name_of zone) ev -> compile_event zone ev.
Proof. destruct ev; cbn; by rewrite ?zone_name_of_idem. Qed.

Lemma device_events_compile zone d tr :
  Forall (compile_event zone) (device_events zone d tr).
Proof.
  unfold device_events. destruct (blank_source _); repeat constructor.
Qed.

Lemma loop_run_trace zone ds l w res :
  loop_run zone ds l w res ->
  exists evs, trace res.2 = trace w ++ evs /\ Forall (compile_event zone) evs.
Proof.
  induction 1 as [| ? ? ? ? ? Hv ? IH | d ? ? ? ? Hv Hr ? IH
                 | d ? ? ? ? ? ? Hv Hr Hn ? IH | ? ? ? ? Hv Hr Hn]; cbn in *.
  - exists []. by rewrite app_nil_r.
  - done.
  - destruct IH as (evs & -> & Hevs). eexists. rewrite <- app_assoc.
    split; [done|]. apply Forall_app. split; [apply device_events_compile|done].
  - destruct IH as (evs & -> & Hevs). eexists. rewrite <- app_assoc.
    split; [done|]. apply Forall_app. split; [apply device_events_compile|done].
  - exists []. by rewrite app_nil_r.
Qed.

(** X8.  The trace of a launch: first the events of the compilation, which
    are volumes created in the zone of the launch, from no snapshot, and
    their naming.  Then either the compilation raised, which is when the
    configuration has more than twenty volume devices that are not root,
    the launch ends in [StopIteration] and nothing follows; or it did not,
    and exactly one [run_instances] call follows, placed in that same zone,
    after which the instance is named and returned, or the launch ends in
    an exception.  No volume is created after the instance is asked for. *)
Theorem launch_trace
    name image instance_type zone keypair sgs user_data lc w r w' :
  AWSInstanceService_create name image instance_type zone keypair sgs
    user_data lc w = (r, w') ->
  exists vol_evs tail,
    trace w' = trace w ++ vol_evs ++ tail
    /\ Forall (compile_event zone) vol_evs
    /\ ((exists c,
           lc = Some c
           /\ 20 < List.length (List.filter non_root_volume (block_devices c))
           /\ r = inl StopIteration /\ tail = [])
        \/ ((forall c, lc = Some c ->
               List.length (List.filter non_root_volume (block_devices c))
               <= 20)
            /\ exists a res,
                 placement a = zone_name_of zone
                 /\ ((tail = [EvRunInstances a res] /\ exists e, r = inl e)
                     \/ exists i0,
                          tail = [EvRunInstances a res;
                                  EvSetName AWSInstance i0 name]
                          /\ r = inr (PyObj AWSInstance i0 name)))).
Proof.
  rewrite create_run. intros Hrun.
  assert (Hlaunch : forall bdm net w1 evs,
    trace w1 = trace w ++ evs ->
    launch name
      (launch_args image instance_type zone keypair sgs user_data bdm net) w1
    = (r, w') ->
    trace w' = trace w ++ evs ++ drop (List.length (trace w1)) (trace w')
    /\ exists a res,
         placement a = zone_name_of zone
         /\ ((drop (List.length (trace w1)) (trace w') = [EvRunInstances a res]
              /\ exists e, r = inl e)
             \/ exists i0,
                  drop (List.length (trace w1)) (trace w')
                  = [EvRunInstances a res; EvSetName AWSInstance i0 name]
                  /\ r = inr (PyObj AWSInstance i0 name))).
  { intros bdm net w1 evs Hw1 Hl. unfold launch in Hl.
    set (a := launch_args _ _ _ _ _ _ _ _) in Hl.
    destruct (ec2_run_instances (trace w1) a) as [[|i0 il]|] eqn:Hres;
      injection Hl as <- <-; cbn; rewrite <- ?app_assoc, drop_app_length;
      (split; [by rewrite Hw1, <- app_assoc|]).
    - exists a, (Some []). split; [done|]. left. split; [done|by eexists].
    - exists a, (Some (i0 :: il)). split; [done|]. right. by exists i0.
    - exists a, None. split; [done|]. left. split; [done|by eexists]. }
  destruct lc as [c|].
  - rewrite process_block_device_mappings_run in Hrun.
    pose proof (loop_run_complete (zone_name_of zone) (block_devices c)
      {| bdm := ∅; next_letter := device_letters; ephemeral_counter := 0 |} w)
      as Hloop.
    destruct (loop_run_trace _ _ _ _ _ Hloop) as (evs & Htrace & Hevs).
    eapply Forall_impl in Hevs; [|apply compile_event_zone_name].
    destruct (decide (List.length
                        (List.filter non_root_volume (block_devices c)) <= 20))
      as [Hle|Hgt].
    + destruct (compile_succeeds c (zone_name_of zone) w Hle)
        as (l & w1 & Hl).
      rewrite Hl in Hrun, Htrace. cbn in Htrace.
      destruct (Hlaunch _ _ _ _ Htrace Hrun) as [Hw' Htail].
      eexists evs, _. split_and!; [exact Hw'|exact Hevs|].
      right. split; [by intros c' [= <-]|exact Htail].
    + pose proof (loop_run_exhausts _ _ _ _ _ Hloop) as Hex.
      cbn [next_letter] in Hex. rewrite device_letters_length in Hex.
      specialize (Hex ltac:(lia)).
      destruct (for_each_device _ _ _ _) as [[e|l] w1]; cbn in Hex, Htrace;
        [|done].
      injection Hex as ->. injection Hrun as <- <-.
      exists evs, []. rewrite app_nil_r. split_and!; [done|done|].
      left. exists c. split_and!; [done|lia|done|done].
  - destruct (Hlaunch None PyNone w [] ltac:(by rewrite app_nil_r) Hrun)
      as [Hw' Htail].
    eexists [], _. split_and!; [exact Hw'|constructor|].
    right. split; [done|exact Htail].
Qed.

Lemma launch_reserved name args w insts :
  ec2_run_instances (trace w) args = Some insts ->
  (launch name args w).1
  = match insts with
    | [] => inl IndexError
    | i0 :: _ => inr (PyObj AWSInstance i0 name)
    end
  /\ (forall i0 rest, insts = i0 :: rest ->
        last (trace (launch name args w).2)
        = Some (EvSetName AWSInstance i0 name)).
Proof.
  unfold launch. intros ->. destruct insts as [|i0 il]; cbn.
  - by split.
  - split; [done|]. intros ? ? [= <- <-]. by rewrite !last_snoc.
Qed.

(** X9.  When the [run_instances] call of a launch answers with a
    reservation, the launch returns the first instance of the reservation,
    under the name asked for, and naming it is the last thing done; a
    reservation without instances ends the launch in [IndexError]. *)
Theorem launch_with_reservation
    name image instance_type zone keypair sgs user_data lc w r w' a insts :
  AWSInstanceService_create name image instance_type zone keypair sgs
    user_data lc w = (r, w') ->
  run_instances_calls (trace w')
  = run_instances_calls (trace w) ++ [(a, Some insts)] ->
  r = match insts with
      | [] => inl IndexError
      | i0 :: _ => inr (PyObj AWSInstance i0 name)
      end
  /\ (forall i0 rest, insts = i0 :: rest ->
        last (trace w') = Some (EvSetName AWSInstance i0 name)).
Proof.
  rewrite create_run. intros Hrun Hcalls.
  assert (Hlaunch : forall args w1,
    run_instances_calls (trace w1) = run_instances_calls (trace w) ->
    launch name args w1 = (r, w') ->
    r = match insts with
        | [] => inl IndexError
        | i0 :: _ => inr (PyObj AWSInstance i0 name)
        end
    /\ (forall i0 rest, insts = i0 :: rest ->
          last (trace w') = Some (EvSetName AWSInstance i0 name))).
  { intros args w1 Hw1 Hl.
    pose proof (launch_calls name args w1) as Hc.
    rewrite Hl, Hw1 in Hc. cbn in Hc. rewrite Hcalls in Hc.
    apply app_inv_head in Hc. injection Hc as _ Hsome.
    pose proof (launch_reserved name args w1 insts (eq_sym Hsome)) as Hr.
    by rewrite Hl in Hr. }
  destruct lc as [c|]; [|by eapply Hlaunch].
  pose proof (compile_launch_calls c (zone_name_of zone) w) as Hc.
  destruct (_process_block_device_mappings c (zone_name_of zone) w)
    as [[e|m] w1]; cbn in Hc.
  - injection Hrun as <- <-. rewrite Hc in Hcalls.
    apply (f_equal List.length) in Hcalls. rewrite length_app in Hcalls.
    cbn in Hcalls. lia.
  - by eapply Hlaunch.
Qed.

(** X10.  [AWSVolumeService.create] with an [AWSSnapshot] passed as [zone]:
    a snapshot given as a non-empty string makes it raise [AttributeError]
    before any call to EC2; a snapshot given as an object has its id taken
    out, and [create_volume] receives that id, and the snapshot object
    passed as [zone] where the zone name is expected. *)
Theorem volume_create_snapshot_as_zone name sz zone snapshot w :
  isinstance zone AWSSnapshot = true ->
  (forall s, snapshot = PyStr s -> s <> "" ->
     AWSVolumeService_create name sz zone snapshot w = (inl AttributeError, w))
  /\ (forall cls sid sname, snapshot = PyObj cls sid sname ->
        exists vid,
          AWSVolumeService_create name sz zone snapshot w
          = (inr (PyObj AWSVolume vid name),
             World (objs w)
               (trace w ++ [EvCreateVolume sz zone (PyStr sid) vid;
                            EvSetName AWSVolume vid name]))).
Proof.
  intros Hz. destruct zone as [|z|zc zi zn]; try done.
  cbn in Hz. assert (zc = AWSSnapshot) as -> by by destruct zc.
  destruct w as [os tr]. split.
  - intros s -> Hs. unfold AWSVolumeService_create. cbn.
    destruct (String.eqb_spec s ""); [done|]. cbn. by run_monad.
  - intros cls sid sname ->. eexists. unfold AWSVolumeService_create. cbn.
    run_monad. by rewrite <- app_assoc.
Qed.

(** ** Validation before compilation *)


(** A configuration with at most one root passes the validation and is
    compiled by [_process_block_device_mappings]. *)
Lemma compile_valid cfg zone w :
  List.length (List.filter is_root (block_devices cfg)) <= 1 ->
  compile cfg zone w
  = (inr (_process_block_device_mappings cfg zone w).1,
     (_process_block_device_mappings cfg zone w).2).
Proof.
  intros Hroots. unfold compile, validate.
  destruct (decide _) as [Hgt|_]; [lia|].
  by destruct (_process_block_device_mappings cfg zone w).
Qed.
End AWSServices.

(** ** Dictionaries and canonical states *)

Section PythonDict.
Context {V : Type}.
Implicit Types (items : list (string * V)) (m : gmap string V).

Lemma python_dict_fold_absent items : forall m k,
  k ∉ items.*1 ->
  fold_left (fun m kv => <[kv.1 := kv.2]> m) items m !! k = m !! k.
Proof.
  induction items as [|[k' v'] items IH]; intros m k Hk; [done|].
  cbn in *. apply not_elem_of_cons in Hk as [Hne Hk].
  rewrite IH by done. by apply lookup_insert_ne.
Qed.

Lemma python_dict_fold_present items : forall m k v,
  NoDup items.*1 -> (k, v) ∈ items ->
  fold_left (fun m kv => <[kv.1 := kv.2]> m) items m !! k = Some v.
Proof.
  induction items as [|[k' v'] items IH]; intros m k v Hnd Hin.
  - by apply elem_of_nil in Hin.
  - cbn in *. apply NoDup_cons in Hnd as [Hk' Hnd].
    apply elem_of_cons in Hin as [[= -> ->]|Hin].
    + rewrite python_dict_fold_absent by done. apply lookup_insert_eq.
    + by apply IH.
Qed.

Lemma normalize_absent items (U : V) s :
  s ∉ items.*1 -> normalize (python_dict items) U s = U.
Proof.
  intros Hs. unfold normalize, dict_get_default, python_dict.
  by rewrite python_dict_fold_absent.
Qed.

Lemma normalize_present items (U : V) s c :
  NoDup items.*1 -> (s, c) ∈ items -> normalize (python_dict items) U s = c.
Proof.
  intros Hnd Hin. unfold normalize, dict_get_default, python_dict.
  by rewrite (python_dict_fold_present _ _ _ c).
Qed.
End PythonDict.

(** No key is written twice in the four tables. *)
Lemma state_items_NoDup :
  NoDup OpenStackInstance.INSTANCE_STATE_ITEMS.*1
  /\ NoDup OpenStackVolume.VOLUME_STATE_ITEMS.*1
  /\ NoDup OpenStackSnapshot.SNAPSHOT_STATE_ITEMS.*1
  /\ NoDup OpenStackMachineImage.IMAGE_STATE_ITEMS.*1.
Proof. split_and!; by apply (bool_decide_unpack _). Qed.

(** The status [refresh] writes for a vanished resource is in no table. *)
Lemma unknown_status_absent :
  ("unknown" ∉ OpenStackInstance.INSTANCE_STATE_ITEMS.*1)
  /\ ("unknown" ∉ OpenStackVolume.VOLUME_STATE_ITEMS.*1)
  /\ ("unknown" ∉ OpenStackSnapshot.SNAPSHOT_STATE_ITEMS.*1)
  /\ ("unknown" ∉ OpenStackMachineImage.IMAGE_STATE_ITEMS.*1).
Proof. split_and!; by apply (bool_decide_unpack _). Qed.

(** ** The claims on states and refresh *)

(** C4.  The [state] property of the four resource classes is total: for a
    status that is not a key of the class's table it is [UNKNOWN], and for a
    status that is a key it is the state the table gives for it, the only
    one, since no key occurs twice. *)
Theorem state_normalization self h o :
  view self h = Some o ->
  ((os_status o ∉ OpenStackInstance.INSTANCE_STATE_ITEMS.*1 ->
    OpenStackInstance.state self h = Some InstanceState.UNKNOWN)
   /\ (forall c, (os_status o, c) ∈ OpenStackInstance.INSTANCE_STATE_ITEMS ->
         OpenStackInstance.state self h = Some c))
  /\ ((os_status o ∉ OpenStackVolume.VOLUME_STATE_ITEMS.*1 ->
       OpenStackVolume.state self h = Some VolumeState.UNKNOWN)
      /\ (forall c, (os_status o, c) ∈ OpenStackVolume.VOLUME_STATE_ITEMS ->
            OpenStackVolume.state self h = Some c))
  /\ ((os_status o ∉ OpenStackSnapshot.SNAPSHOT_STATE_ITEMS.*1 ->
       OpenStackSnapshot.state self h = Some SnapshotState.UNKNOWN)
      /\ (forall c, (os_status o, c) ∈ OpenStackSnapshot.SNAPSHOT_STATE_ITEMS ->
            OpenStackSnapshot.state self h = Some c))
  /\ ((os_status o ∉ OpenStackMachineImage.IMAGE_STATE_ITEMS.*1 ->
       OpenStackMachineImage.state self h = Some MachineImageState.UNKNOWN)
      /\ (forall c,
            (os_status o, c) ∈ OpenStackMachineImage.IMAGE_STATE_ITEMS ->
            OpenStackMachineImage.state self h = Some c)).
Proof.
  unfold view. intros Hview.
  destruct state_items_NoDup as (Hi & Hv & Hs & Hm).
  unfold OpenStackInstance.state, OpenStackVolume.state,
    OpenStackSnapshot.state, OpenStackMachineImage.state, state.
  rewrite Hview. cbn [fmap option_fmap option_map].
  split_and!; intros; f_equal;
    (by apply normalize_absent) || (by apply normalize_present).
Qed.

(** C3.  Refreshing a resource the provider no longer knows does not fail: the
    wrapper keeps its payload object, whose status becomes ['unknown'] while
    its id, name and other attributes stay as they were; every other object
    of the store is untouched, and the [state] of the resource, for each of
    the four classes, is [UNKNOWN]. *)
Theorem refresh_vanished describe self h o :
  view self h = Some o ->
  describe (os_id o) = None ->
  exists h' o',
    refresh describe self h = Some (self, h')
    /\ view self h' = Some o'
    /\ os_status o' = "unknown"
    /\ os_id o' = os_id o /\ os_name o' = os_name o
    /\ os_attrs o' = os_attrs o
    /\ (forall j, j <> _payload self -> h' !! j = h !! j)
    /\ OpenStackInstance.state self h' = Some InstanceState.UNKNOWN
    /\ OpenStackVolume.state self h' = Some VolumeState.UNKNOWN
    /\ OpenStackSnapshot.state self h' = Some SnapshotState.UNKNOWN
    /\ OpenStackMachineImage.state self h' = Some MachineImageState.UNKNOWN.
Proof.
  unfold view. intros Hview Hgone.
  destruct unknown_status_absent as (Hi & Hv & Hs & Hm).
  exists (alter (set_status "unknown") (_payload self) h),
    (set_status "unknown" o).
  assert (Hview' : alter (set_status "unknown") (_payload self) h
                   !! _payload self = Some (set_status "unknown" o)).
  { by rewrite list_lookup_alter_eq, Hview. }
  unfold OpenStackInstance.state, OpenStackVolume.state,
    OpenStackSnapshot.state, OpenStackMachineImage.state, state.
  rewrite Hview'. cbn [fmap option_fmap option_map set_status os_status].
  split_and!; try done; try (f_equal; by apply normalize_absent).
  - unfold refresh, resource_id, service_get. rewrite Hview. cbn.
    by rewrite Hgone.
  - intros j Hj. by apply list_lookup_alter_ne.
Qed.

(** C8.  Two refreshes in a row, the provider answering the second query as
    it answered the first, leave the resource with the view it had after the
    first; when the resource has vanished the second refresh changes
    nothing at all, neither the wrapper nor the store. *)
Theorem refresh_twice describe self h o :
  view self h = Some o ->
  (forall p, describe (os_id o) = Some p -> describe (os_id p) = Some p) ->
  exists r1 h1 r2 h2 v,
    refresh describe self h = Some (r1, h1)
    /\ refresh describe r1 h1 = Some (r2, h2)
    /\ view r1 h1 = Some v
    /\ view r2 h2 = Some v
    /\ (describe (os_id o) = None -> r2 = r1 /\ h2 = h1).
Proof.
  unfold view. intros Hview Hsame.
  destruct (describe (os_id o)) as [p|] eqn:Hd.
  - exists (Resource (List.length h)), (h ++ [p]),
      (Resource (List.length (h ++ [p]))), ((h ++ [p]) ++ [p]), p.
    assert (Hp : (h ++ [p]) !! List.length h = Some p)
      by apply list_lookup_middle, eq_refl.
    split_and!; try done.
    + unfold refresh, resource_id, service_get. rewrite Hview. cbn.
      by rewrite Hd.
    + unfold refresh, resource_id, service_get. cbn. rewrite Hp. cbn.
      by rewrite (Hsame p eq_refl).
    + cbn. by apply list_lookup_middle.
  - set (f := set_status "unknown").
    exists self, (alter f (_payload self) h), self,
      (alter f (_payload self) h), (f o).
    assert (Hv : alter f (_payload self) h !! _payload self = Some (f o))
      by by rewrite list_lookup_alter_eq, Hview.
    split_and!; try done.
    + unfold refresh, resource_id, service_get. rewrite Hview. cbn.
      by rewrite Hd.
    + unfold refresh, resource_id, service_get. rewrite Hv. cbn.
      rewrite Hd. do 2 f_equal.
      apply list_eq. intros j. destruct (decide (j = _payload self)) as [->|].
      * by rewrite list_lookup_alter_eq, Hv.
      * by rewrite list_lookup_alter_ne.
Qed.

(** ** More on refresh *)

(** X11.  Refreshing a resource the provider still knows: the wrapper now
    refers to a new payload object, which is the provider's answer as a
    whole, nothing of the old payload being kept; the old payload object and
    every other object of the store stay as they were; and the [state] of
    the resource is the normalization of the answered status. *)
Theorem refresh_found describe self h o p :
  view self h = Some o ->
  describe (os_id o) = Some p ->
  exists r' h',
    refresh describe self h = Some (r', h')
    /\ view r' h' = Some p
    /\ (forall j x, h !! j = Some x -> h' !! j = Some x)
    /\ OpenStackInstance.state r' h'
       = Some (OpenStackInstance.normalize (os_status p))
    /\ OpenStackVolume.state r' h'
       = Some (OpenStackVolume.normalize (os_status p))
    /\ OpenStackSnapshot.state r' h'
       = Some (OpenStackSnapshot.normalize (os_status p))
    /\ OpenStackMachineImage.state r' h'
       = Some (OpenStackMachineImage.normalize (os_status p)).
Proof.
  unfold view. intros Hview Hfound.
  exists (Resource (List.length h)), (h ++ [p]).
  assert (Hp : (h ++ [p]) !! List.length h = Some p)
    by apply list_lookup_middle, eq_refl.
  unfold OpenStackInstance.state, OpenStackVolume.state,
    OpenStackSnapshot.state, OpenStackMachineImage.state, state.
  cbn [_payload]. rewrite Hp. split_and!; try done.
  - unfold refresh, resource_id, service_get. rewrite Hview. cbn.
    by rewrite Hfound.
  - intros j x Hj. by apply lookup_app_l_Some.
Qed.

(** X12.  An image wrapper built from another image wrapper shares its
    payload object.  So when the original is refreshed and the image has
    vanished, the copy reads [UNKNOWN] as well, without having been
    refreshed; and when the image is found the original moves on to the new
    payload while the copy keeps reading the old one. *)
Theorem image_copy_shares_payload describe original h o :
  view original h = Some o ->
  view (OpenStackMachineImage_init (Wrapper original)) h = Some o
  /\ (describe (os_id o) = None ->
      exists h',
        OpenStackMachineImage.refresh describe original h
        = Some (original, h')
        /\ OpenStackMachineImage.state
             (OpenStackMachineImage_init (Wrapper original)) h'
           = Some MachineImageState.UNKNOWN)
  /\ (forall p, describe (os_id o) = Some p ->
      exists r' h',
        OpenStackMachineImage.refresh describe original h = Some (r', h')
        /\ view r' h' = Some p
        /\ view (OpenStackMachineImage_init (Wrapper original)) h' = Some o).
Proof.
  unfold view, OpenStackMachineImage.refresh, OpenStackMachineImage.state,
    state, refresh, resource_id, service_get. cbn [_payload].
  intros Hview. rewrite Hview. cbn. split_and!.
  - done.
  - intros ->. eexists. split; [done|].
    by rewrite list_lookup_alter_eq, Hview.
  - intros p ->. do 2 eexists. split_and!; [done| |].
    + cbn. by apply list_lookup_middle.
    + by apply lookup_app_l_Some.
Qed.

(** ** More on the OpenStack resources *)

(** X13.  [OpenStackContainerObject.delete] returns [True] exactly when
    Swift raised a [ClientException] with status 404; when the deletion went
    through it returns [False]. *)
Theorem container_object_delete_result outcome :
  (OpenStackContainerObject_delete outcome = Some true
   <-> outcome = SwiftClientException 404)
  /\ OpenStackContainerObject_delete SwiftDone = Some false.
Proof.
  split; [|done]. destruct outcome as [|st|]; cbn; [done| |done].
  destruct (Z.eqb_spec st 404) as [->|Hne]; [done|].
  split; [done|]. intros [= ->]. done.
Qed.

(** X14.  [add_rule] with a source group makes two calls, for [tcp] and for
    [udp], each over ports 1 to 65535 from that group, whatever protocol,
    ports and CIDR block were passed, and returns [None]; it returns [True]
    only without a source group, after a single call that was answered. *)
Theorem add_rule_result answer self_id p f t c src_group :
  (forall gid, src_group = Some gid ->
     add_rule answer self_id p f t c src_group
     = (None, [GroupRule self_id "tcp" 1 65535 gid;
               GroupRule self_id "udp" 1 65535 gid]))
  /\ ((add_rule answer self_id p f t c src_group).1 = Some true
      <-> src_group = None /\ answer (CidrRule self_id p f t c) = true)
  /\ (src_group = None ->
      (add_rule answer self_id p f t c src_group).2
      = [CidrRule self_id p f t c]).
Proof.
  destruct src_group as [gid|]; cbn.
  - split_and!; [by intros ? [= <-]| |done]. split; [done|by intros []].
  - split_and!; [done| |done]. split; [by intros [= ->]|by intros [_ ->]].
Qed.

Section Addresses.
Variable ip_is_private : string -> option bool.

Lemma select_addresses_split addresses : forall pub priv,
  select_addresses ip_is_private negb addresses = Some pub ->
  select_addresses ip_is_private (fun b => b) addresses = Some priv ->
  pub ++ priv ≡ₚ addresses
  /\ Forall (fun a => ip_is_private a = Some false) pub
  /\ Forall (fun a => ip_is_private a = Some true) priv.
Proof.
  induction addresses as [|a rest IH]; intros pub priv Hpub Hpriv; cbn in *.
  - by simplify_eq.
  - destruct (ip_is_private a) as [b|] eqn:Ha; [|done]. cbn in *.
    destruct (select_addresses _ negb rest) as [pub'|]; [|done].
    destruct (select_addresses _ _ rest) as [priv'|]; [|done].
    destruct (IH pub' priv' eq_refl eq_refl) as (Hperm & Hfpub & Hfpriv).
    cbn in *. simplify_eq. destruct b; cbn.
    + split_and!; [|done|by constructor].
      rewrite <- Hperm. by rewrite <- Permutation_middle.
    + split_and!; [|by constructor|done]. by rewrite <- Hperm.
Qed.

Lemma select_addresses_raises keep addresses :
  select_addresses ip_is_private keep addresses = None
  <-> Exists (fun a => ip_is_private a = None) addresses.
Proof.
  induction addresses as [|a rest IH]; cbn.
  - split; [done|by intros ?%Exists_nil].
  - rewrite Exists_cons, <- IH.
    destruct (ip_is_private a) as [b|]; cbn; [|by split; [left|]].
    destruct (select_addresses _ keep rest); cbn; [|by split; [right|]].
    split; [done|by intros [|]].
Qed.

Lemma select_networks_raises keep networks :
  select_networks ip_is_private keep networks = None
  <-> Exists (fun a => ip_is_private a = None) (concat (snd <$> networks)).
Proof.
  induction networks as [|[label addresses] rest IH]; cbn.
  - split; [done|by intros ?%Exists_nil].
  - rewrite Exists_app, <- IH, <- (select_addresses_raises keep).
    destruct (select_addresses _ keep addresses); cbn; [|by split; [left|]].
    destruct (select_networks _ keep rest); cbn; [|by split; [right|]].
    split; [done|by intros [|]].
Qed.

(** X15.  The public and the private addresses of an instance: one of the
    two properties raises exactly when the other does, which is when some
    address of the instance does not parse; otherwise every address of
    every network is in one of the two lists, as many times as it occurs,
    the public list holding the addresses that are not private and the
    private list those that are. *)
Theorem addresses_partition networks :
  (public_ips ip_is_private networks = None
   <-> private_ips ip_is_private networks = None)
  /\ (forall pub priv,
        public_ips ip_is_private networks = Some pub ->
        private_ips ip_is_private networks = Some priv ->
        pub ++ priv ≡ₚ concat (snd <$> networks)
        /\ Forall (fun a => ip_is_private a = Some false) pub
        /\ Forall (fun a => ip_is_private a = Some true) priv).
Proof.
  unfold public_ips, private_ips. split.
  - by rewrite !select_networks_raises.
  - induction networks as [|[label addresses] rest IH]; intros pub priv;
      cbn.
    + by intros [= <-] [= <-].
    + destruct (select_addresses _ negb addresses) as [pub1|] eqn:H1; [|done].
      destruct (select_addresses _ (fun b => b) addresses) as [priv1|] eqn:H2;
        [|done].
      cbn.
      destruct (select_networks _ negb rest) as [pub2|]; [|done].
      destruct (select_networks _ (fun b => b) rest) as [priv2|]; [|done].
      cbn. intros [= <-] [= <-].
      destruct (select_addresses_split _ _ _ H1 H2) as (Hp1 & Hf1 & Hg1).
      destruct (IH pub2 priv2 eq_refl eq_refl) as (Hp2 & Hf2 & Hg2).
      split_and!; [|by apply Forall_app|by apply Forall_app].
      rewrite <- Hp1, <- Hp2, <- !app_assoc. f_equiv.
      rewrite !app_assoc. f_equiv. apply Permutation_app_comm.
Qed.
End Addresses.

(** ** More on the AWS key pair and security group services *)

Lemma keypair_delete_from_spec key_pairs name : forall i0,
  (keypair_delete_from i0 key_pairs name).1 = true
  /\ (((keypair_delete_from i0 key_pairs name).2 = [] /\ name ∉ key_pairs)
      \/ exists i,
           (keypair_delete_from i0 key_pairs name).2 = [i0 + i]
           /\ key_pairs !! i = Some name
           /\ forall j, j < i -> key_pairs !! j <> Some name).
Proof.
  induction key_pairs as [|kp rest IH]; intros i0; cbn.
  - split; [done|]. left. split; [done|]. apply not_elem_of_nil.
  - destruct (String.eqb_spec kp name) as [->|Hne]; cbn.
    + split; [done|]. right. exists 0. rewrite Nat.add_0_r.
      split_and!; [done|done|]. intros j Hj. lia.
    + destruct (IH (S i0)) as [Htrue [[Hnone Hnotin]|(i & Hone & Hi & Hfirst)]].
      * split; [done|]. left. split; [done|].
        apply not_elem_of_cons. by split.
      * split; [done|]. right. exists (S i).
        split_and!; [by rewrite Hone, Nat.add_succ_r|done|].
        intros [|j] Hj; cbn; [by intros [= ->]|]. apply Hfirst. lia.
Qed.

(** X16.  [AWSKeyPairService.delete] returns [True] whether a key pair of
    that name exists or not.  It deletes at most one key pair: the first one
    listed under that name, and none when there is none. *)
Theorem keypair_delete_first key_pairs name :
  (AWSKeyPairService_delete key_pairs name).1 = true
  /\ (((AWSKeyPairService_delete key_pairs name).2 = [] /\ name ∉ key_pairs)
      \/ exists i,
           (AWSKeyPairService_delete key_pairs name).2 = [i]
           /\ key_pairs !! i = Some name
           /\ forall j, j < i -> key_pairs !! j <> Some name).
Proof. apply (keypair_delete_from_spec key_pairs name 0). Qed.

Lemma delete_groups_spec deletable groups :
  (delete_groups deletable groups = (true, groups)
   /\ Forall (fun sg => deletable sg = true) groups)
  \/ exists done sg rest,
       groups = done ++ sg :: rest
       /\ Forall (fun sg' => deletable sg' = true) done
       /\ deletable sg = false
       /\ delete_groups deletable groups = (false, done ++ [sg]).
Proof.
  induction groups as [|sg groups IH]; cbn.
  - by left.
  - destruct (deletable sg) eqn:Hsg.
    + destruct IH as [[-> Hall]|(done & sg' & rest & -> & Hdone & Hsg' & ->)].
      * left. split; [done|by constructor].
      * right. exists (sg :: done), sg', rest.
        split_and!; [done|by constructor|done|done].
    + right. exists [], sg, groups. by split_and!.
Qed.

(** X17.  [AWSSecurityGroupService.delete]: when the listing raises, the
    result is [True] and nothing is deleted.  Otherwise the groups listed
    are deleted in order; the result is [True] when every deletion went
    through, and [False] as soon as one is refused, the groups listed after
    it being left alone. *)
Theorem security_group_delete_result listing deletable group_id :
  match listing [group_id] with
  | None =>
      AWSSecurityGroupService_delete listing deletable group_id = (true, [])
  | Some groups =>
      (AWSSecurityGroupService_delete listing deletable group_id
       = (true, groups)
       /\ Forall (fun sg => deletable sg = true) groups)
      \/ exists done sg rest,
           groups = done ++ sg :: rest
           /\ Forall (fun sg' => deletable sg' = true) done
           /\ deletable sg = false
           /\ AWSSecurityGroupService_delete listing deletable group_id
              = (false, done ++ [sg])
  end.
Proof.
  unfold AWSSecurityGroupService_delete.
  destruct (listing [group_id]) as [groups|]; [|done].
  apply delete_groups_spec.
Qed.

(** ** The claims at sample inputs *)

Lemma ephemeral_devices_left_out_witness :
  Forall (fun d => is_volume d = false)
    (block_devices (config_of [ephemeral_device; ephemeral_device]))
  /\ _process_block_device_mappings sample_create_volume
       (config_of [ephemeral_device; ephemeral_device]) (PyStr "us-east-1a")
       world0
     = (inr ∅, World [ephemeral_descriptor 0; ephemeral_descriptor 0] []).
Proof.
  assert (H : Forall (fun d => is_volume d = false)
                (block_devices (config_of [ephemeral_device; ephemeral_device])))
    by (repeat constructor).
  split; [exact H|].
  exact (ephemeral_devices_left_out sample_create_volume _
           (PyStr "us-east-1a") world0 H).
Defined.

Lemma volume_create_snapshot_unchanged_witness :
  isinstance (PyStr "us-east-1a") AWSSnapshot = false
  /\ exists vid,
       AWSVolumeService_create sample_create_volume "data" (Some 8%Z)
         (PyStr "us-east-1a") (PyObj AWSSnapshot "snap-1" "nightly") world0
       = (inr (PyObj AWSVolume vid "data"),
          World []
            [EvCreateVolume (Some 8%Z) (PyStr "us-east-1a")
               (PyObj AWSSnapshot "snap-1" "nightly") vid;
             EvSetName AWSVolume vid "data"]).
Proof.
  split; [reflexivity|].
  exact (volume_create_snapshot_unchanged sample_create_volume "data"
           (Some 8%Z) (PyStr "us-east-1a")
           (PyObj AWSSnapshot "snap-1" "nightly") world0 eq_refl).
Defined.

Lemma launch_without_reservation_witness :
  run_instances_calls
    (trace (AWSInstanceService_create sample_create_volume no_reservation
              "web" (PyStr "ami-1") (PyStr "t2.micro") (PyStr "us-east-1a")
              PyNone None PyNone None world0).2)
  = run_instances_calls (trace world0)
      ++ [(launch_args (PyStr "ami-1") (PyStr "t2.micro")
             (PyStr "us-east-1a") PyNone None PyNone None PyNone, None)]
  /\ (AWSInstanceService_create sample_create_volume no_reservation "web"
        (PyStr "ami-1") (PyStr "t2.micro") (PyStr "us-east-1a") PyNone None
        PyNone None world0).1
     = inl UnboundLocalError.
Proof.
  set (run := AWSInstanceService_create sample_create_volume no_reservation
                "web" (PyStr "ami-1") (PyStr "t2.micro") (PyStr "us-east-1a")
                PyNone None PyNone None world0).
  set (a := launch_args (PyStr "ami-1") (PyStr "t2.micro")
              (PyStr "us-east-1a") PyNone None PyNone None PyNone).
  assert (H : run_instances_calls (trace run.2)
              = run_instances_calls (trace world0) ++ [(a, None)])
    by reflexivity.
  split; [exact H|].
  exact (launch_without_reservation sample_create_volume no_reservation
           "web" (PyStr "ami-1") (PyStr "t2.micro") (PyStr "us-east-1a")
           PyNone None PyNone None world0 run.1 run.2 a
           (surjective_pairing run) H).
Defined.

Lemma launch_issues_one_call_witness :
  (forall c, Some three_devices = Some c ->
     List.length (List.filter non_root_volume (block_devices c)) <= 20)
  /\ exists a res,
       run_instances_calls
         (trace (AWSInstanceService_create sample_create_volume
                   sample_run_instances "web" (PyStr "ami-1")
                   (PyStr "t2.micro") (PyStr "us-east-1a") PyNone None PyNone
                   (Some three_devices) world0).2)
       = [(a, res)].
Proof.
  assert (H : forall c, Some three_devices = Some c ->
     List.length (List.filter non_root_volume (block_devices c)) <= 20).
  { intros c [= <-]. cbn. lia. }
  split; [exact H|].
  destruct (launch_issues_one_call sample_create_volume sample_run_instances
              "web" (PyStr "ami-1") (PyStr "t2.micro") (PyStr "us-east-1a")
              PyNone None PyNone (Some three_devices) world0 H)
    as (r & w' & a & res & Heq & Hcalls & _).
  exists a, res. rewrite Heq. exact Hcalls.
Defined.

Lemma blank_volume_provisioned_once_witness :
  block_devices three_devices
  = [blank_volume true 8] ++ blank_volume false 20 :: [ephemeral_device]
  /\ PyStr "us-east-1a" <> PyNone
  /\ List.length (List.filter non_root_volume (block_devices three_devices))
     <= 20
  /\ exists m w' vid r b,
       _process_block_device_mappings sample_create_volume three_devices
         (PyStr "us-east-1a") world0 = (inr m, w')
       /\ (Some 20%Z, PyStr "us-east-1a", PyNone, vid)
          ∈ create_volume_calls (trace w')
       /\ m !! "sdg" = Some r
       /\ objs w' !! r = Some b
       /\ bd_volume_id b = Some vid.
Proof.
  assert (Hz : PyStr "us-east-1a" <> PyNone) by discriminate.
  assert (Hn : List.length
                 (List.filter non_root_volume (block_devices three_devices))
               <= 20) by (cbn; lia).
  split_and!; [reflexivity|exact Hz|exact Hn|].
  destruct (blank_volume_provisioned_once sample_create_volume three_devices
              (PyStr "us-east-1a") [blank_volume true 8]
              (blank_volume false 20) [ephemeral_device] world0
              eq_refl eq_refl eq_refl eq_refl Hz Hn)
    as (m & w' & vid & cpre & cpost & r & b & Hrun & Hcalls & _ & _ & Hslot
        & _ & Hobj & Hvid & _).
  exists m, w', vid, r, b. split_and!; try done.
  rewrite Hcalls. cbn. set_solver.
Defined.

Lemma multiple_roots_accepted_witness :
  1 < List.length (List.filter is_root (block_devices two_roots))
  /\ List.length (List.filter non_root_volume (block_devices two_roots)) <= 20
  /\ exists m w' calls,
       _process_block_device_mappings sample_create_volume two_roots
         (PyStr "us-east-1a") world0 = (inr m, w')
       /\ create_volume_calls (trace w') = calls
       /\ List.length calls = 2
       /\ m !! "/dev/sda1" = Some 1.
Proof.
  assert (H1 : 1 < List.length (List.filter is_root (block_devices two_roots)))
    by (cbn; lia).
  assert (H2 : List.length
                 (List.filter non_root_volume (block_devices two_roots)) <= 20)
    by (cbn; lia).
  split_and!; [exact H1|exact H2|].
  destruct (multiple_roots_accepted sample_create_volume two_roots
              (PyStr "us-east-1a") world0 H1 H2)
    as (m & w' & calls & Hrun & Hcalls & Hargs & Hroot).
  exists m, w', calls. split_and!; try done.
  - apply (f_equal List.length) in Hargs. by rewrite !length_fmap in Hargs.
  - by destruct (Hroot [blank_volume true 8] (blank_volume true 8) []
                   eq_refl eq_refl eq_refl) as [-> _].
Defined.

Lemma mixed_devices_mapping_witness :
  block_devices four_devices
  = [blank_volume true 8; blank_volume false 20; blank_volume false 30;
     ephemeral_device]
  /\ exists w' vid0 vid1 vid2,
       _process_block_device_mappings sample_create_volume four_devices
         (PyStr "us-east-1a") world0
       = (inr (<["sdh" := 2]> (<["sdg" := 1]> (<["/dev/sda1" := 0]> ∅))), w')
       /\ objs w'
          = [volume_descriptor (blank_volume true 8) vid0;
             volume_descriptor (blank_volume false 20) vid1;
             volume_descriptor (blank_volume false 30) vid2;
             ephemeral_descriptor 0].
Proof.
  split; [reflexivity|].
  exact (mixed_devices_mapping sample_create_volume four_devices
           (PyStr "us-east-1a") (blank_volume true 8) (blank_volume false 20)
           (blank_volume false 30) ephemeral_device world0
           eq_refl eq_refl eq_refl eq_refl eq_refl).
Defined.

Lemma state_normalization_witness :
  view (Resource 0) [sample_object "ACTIVE"] = Some (sample_object "ACTIVE")
  /\ OpenStackInstance.state (Resource 0) [sample_object "ACTIVE"]
     = Some InstanceState.RUNNING
  /\ OpenStackVolume.state (Resource 0) [sample_object "ACTIVE"]
     = Some VolumeState.UNKNOWN.
Proof.
  split; [reflexivity|].
  destruct (state_normalization (Resource 0) [sample_object "ACTIVE"]
              (sample_object "ACTIVE") eq_refl)
    as ((_ & Hi) & (Hv & _) & _).
  split.
  - apply Hi. constructor.
  - apply Hv. by apply (bool_decide_unpack _).
Defined.

Lemma refresh_vanished_witness :
  view (Resource 0) [sample_object "ACTIVE"] = Some (sample_object "ACTIVE")
  /\ (fun _ : string => @None os_object) "r-1" = None
  /\ exists h',
       refresh (fun _ => None) (Resource 0) [sample_object "ACTIVE"]
       = Some (Resource 0, h')
       /\ view (Resource 0) h' = Some (sample_object "unknown")
       /\ OpenStackInstance.state (Resource 0) h'
          = Some InstanceState.UNKNOWN.
Proof.
  split_and!; [reflexivity|reflexivity|].
  destruct (refresh_vanished (fun _ => None) (Resource 0)
              [sample_object "ACTIVE"] (sample_object "ACTIVE")
              eq_refl eq_refl)
    as (h' & o' & Hrun & Hview & Hstatus & Hid & Hname & Hattrs & _ & Hi & _).
  exists h'. split_and!; [done| |done].
  rewrite Hview. f_equal. destruct o' as [i n s a]. cbn in *. by subst.
Defined.

Lemma refresh_twice_witness :
  view (Resource 0) [sample_object "ACTIVE"] = Some (sample_object "ACTIVE")
  /\ (forall p, sample_describe "r-1" = Some p ->
        sample_describe (os_id p) = Some p)
  /\ exists r1 h1 r2 h2 v,
       refresh sample_describe (Resource 0) [sample_object "ACTIVE"]
       = Some (r1, h1)
       /\ refresh sample_describe r1 h1 = Some (r2, h2)
       /\ view r1 h1 = Some v
       /\ view r2 h2 = Some v.
Proof.
  assert (H : forall p, sample_describe "r-1" = Some p ->
                sample_describe (os_id p) = Some p)
    by (by intros p [= <-]).
  split_and!; [reflexivity|exact H|].
  destruct (refresh_twice sample_describe (Resource 0)
              [sample_object "ACTIVE"] (sample_object "ACTIVE") eq_refl H)
    as (r1 & h1 & r2 & h2 & v & H1 & H2 & Hv1 & Hv2 & _).
  by exists r1, h1, r2, h2, v.
Defined.

(** ** Where the code departs from the claims *)

(** [_process_block_device_mappings] on a list of two root volumes without
    a source, put together without [BaseLaunchConfig]: the mapping is
    returned and two volumes have been created on the way. *)
Lemma two_roots_not_refused :
  1 < List.length (List.filter is_root (block_devices two_roots))
  /\ (_process_block_device_mappings sample_create_volume two_roots
        (PyStr "us-east-1a") world0).1
     = inr (<["/dev/sda1" := 1]> ∅)
  /\ create_volume_calls
       (trace (_process_block_device_mappings sample_create_volume two_roots
                 (PyStr "us-east-1a") world0).2)
     = [(Some 8%Z, PyStr "us-east-1a", PyNone, "vol-0");
        (Some 8%Z, PyStr "us-east-1a", PyNone, "vol-1")].
Proof. split_and!; [cbn; lia|by vm_compute|by vm_compute]. Qed.

(** C5 fails.  Of twenty-one volume devices without a source, none of them
    root, the last gets no [create_volume] call and no descriptor: the
    letters run out, the loop ends in [StopIteration] after twenty calls and
    no mapping is returned. *)
Lemma twenty_first_volume_not_provisioned :
  block_devices twenty_one_volumes
  = replicate 20 (blank_volume false 8) ++ blank_volume false 8 :: []
  /\ (_process_block_device_mappings sample_create_volume twenty_one_volumes
        (PyStr "us-east-1a") world0).1
     = inl StopIteration
  /\ List.length
       (create_volume_calls
          (trace (_process_block_device_mappings sample_create_volume
                    twenty_one_volumes (PyStr "us-east-1a") world0).2))
     = 20.
Proof. split_and!; by vm_compute. Qed.

(** C6 fails.  A launch with that configuration issues no [run_instances]
    call at all: it ends in [StopIteration] before reaching it. *)
Lemma launch_with_twenty_one_volumes :
  (AWSInstanceService_create sample_create_volume sample_run_instances "web"
     (PyStr "ami-1") (PyStr "t2.micro") (PyStr "us-east-1a") PyNone None
     PyNone (Some twenty_one_volumes) world0).1
  = inl StopIteration
  /\ run_instances_calls
       (trace (AWSInstanceService_create sample_create_volume
                 sample_run_instances "web" (PyStr "ami-1") (PyStr "t2.micro")
                 (PyStr "us-east-1a") PyNone None PyNone
                 (Some twenty_one_volumes) world0).2)
     = [].
Proof. split; by vm_compute. Qed.

(** ** More sample inputs *)

Lemma letters_exhausted_after_provisioning_witness :
  block_devices twenty_one_volumes
  = replicate 20 (blank_volume false 8) ++ blank_volume false 8 :: []
  /\ non_root_volume (blank_volume false 8) = true
  /\ List.length
       (List.filter non_root_volume (replicate 20 (blank_volume false 8)))
     = 20
  /\ exists w' calls,
       _process_block_device_mappings sample_create_volume twenty_one_volumes
         (PyStr "us-east-1a") world0 = (inl StopIteration, w')
       /\ create_volume_calls (trace w') = calls
       /\ List.length calls = 20.
Proof.
  split_and!; [reflexivity|reflexivity|reflexivity|].
  destruct (letters_exhausted_after_provisioning sample_create_volume
              twenty_one_volumes (PyStr "us-east-1a")
              (replicate 20 (blank_volume false 8)) (blank_volume false 8)
              [] world0 eq_refl eq_refl eq_refl)
    as (w' & calls & Hrun & Hcalls & Hargs).
  exists w', calls. split_and!; [done|done|].
  apply (f_equal List.length) in Hargs. by rewrite !length_fmap in Hargs.
Defined.

Lemma mapping_slots_witness :
  _process_block_device_mappings sample_create_volume four_devices
    (PyStr "us-east-1a") world0
  = (inr (<["sdh" := 2]> (<["sdg" := 1]> (<["/dev/sda1" := 0]> ∅))),
     (_process_block_device_mappings sample_create_volume four_devices
        (PyStr "us-east-1a") world0).2)
  /\ base.size (<["sdh" := 2]> (<["sdg" := 1]> (<["/dev/sda1" := 0]> ∅))
                : gmap string nat) = 3.
Proof.
  assert (H : _process_block_device_mappings sample_create_volume four_devices
                (PyStr "us-east-1a") world0
              = (inr (<["sdh" := 2]> (<["sdg" := 1]> (<["/dev/sda1" := 0]> ∅))),
                 (_process_block_device_mappings sample_create_volume
                    four_devices (PyStr "us-east-1a") world0).2))
    by (vm_compute; reflexivity).
  split; [exact H|].
  exact (proj1 (mapping_slots sample_create_volume four_devices
                  (PyStr "us-east-1a") world0 _ _ H)).
Defined.

Lemma snapshot_source_kept_witness :
  block_devices sourced_devices
  = [blank_volume true 8] ++ snapshot_device
      :: [volume_device; image_device; blank_volume false 20]
  /\ exists m w' r b,
       _process_block_device_mappings sample_create_volume sourced_devices
         (PyStr "us-east-1a") world0 = (inr m, w')
       /\ m !! "sdg" = Some r
       /\ objs w' !! r = Some b
       /\ bd_snapshot_id b = Some "snap-7" /\ bd_volume_id b = None
       /\ List.length (create_volume_calls (trace w')) = 2.
Proof.
  split; [reflexivity|].
  destruct (snapshot_source_kept sample_create_volume sourced_devices
              (PyStr "us-east-1a") [blank_volume true 8] snapshot_device
              [volume_device; image_device; blank_volume false 20] world0
              AWSSnapshot "snap-7" "nightly"
              eq_refl eq_refl eq_refl eq_refl)
    as (m & w' & r & b & cpre & cpost & Hrun & Hslot & Hobj & Hsnap & Hvol
        & _ & Hcalls & Hpre & Hpost); [discriminate|cbn; lia|].
  exists m, w', r, b.
  split_and!; [exact Hrun|exact Hslot|exact Hobj|exact Hsnap|exact Hvol|].
  rewrite Hcalls. cbn. rewrite length_app.
  apply (f_equal List.length) in Hpre, Hpost.
  rewrite !length_fmap in Hpre, Hpost. rewrite Hpre, Hpost. reflexivity.
Defined.

Lemma volume_source_kept_witness :
  block_devices sourced_devices
  = [blank_volume true 8; snapshot_device] ++ volume_device
      :: [image_device; blank_volume false 20]
  /\ exists m w' r b,
       _process_block_device_mappings sample_create_volume sourced_devices
         (PyStr "us-east-1a") world0 = (inr m, w')
       /\ m !! "sdh" = Some r
       /\ objs w' !! r = Some b
       /\ bd_volume_id b = Some "vol-9" /\ bd_snapshot_id b = None.
Proof.
  split; [reflexivity|].
  destruct (volume_source_kept sample_create_volume sourced_devices
              (PyStr "us-east-1a") [blank_volume true 8; snapshot_device]
              volume_device [image_device; blank_volume false 20] world0
              AWSVolume "vol-9" "data" eq_refl eq_refl eq_refl eq_refl)
    as (m & w' & r & b & cpre & cpost & Hrun & Hslot & Hobj & Hvol & Hsnap
        & _); [discriminate|cbn; lia|].
  exists m, w', r, b.
  split_and!; [exact Hrun|exact Hslot|exact Hobj|exact Hvol|exact Hsnap].
Defined.

Lemma image_source_ignored_witness :
  block_devices sourced_devices
  = [blank_volume true 8; snapshot_device; volume_device] ++ image_device
      :: [blank_volume false 20]
  /\ exists m w' r b,
       _process_block_device_mappings sample_create_volume sourced_devices
         (PyStr "us-east-1a") world0 = (inr m, w')
       /\ m !! "sdi" = Some r
       /\ objs w' !! r = Some b
       /\ bd_volume_id b = None /\ bd_snapshot_id b = None
       /\ bd_size b = Some 5%Z.
Proof.
  split; [reflexivity|].
  destruct (image_source_ignored sample_create_volume sourced_devices
              (PyStr "us-east-1a")
              [blank_volume true 8; snapshot_device; volume_device]
              image_device [blank_volume false 20] world0
              MachineImage "ami-3" "base" eq_refl eq_refl eq_refl eq_refl)
    as (m & w' & r & b & cpre & cpost & Hrun & Hslot & Hobj & Hvol & Hsnap
        & Hsize & _); [discriminate|cbn; lia|].
  exists m, w', r, b.
  split_and!; [exact Hrun|exact Hslot|exact Hobj|exact Hvol|exact Hsnap
              |exact Hsize].
Defined.

Lemma string_source_provisioned_witness :
  exists m w' r b vid,
    _process_block_device_mappings sample_create_volume
      (config_of [{| is_volume := true; source := PyStr "snap-7";
                     is_root := false; size := Some 8%Z;
                     delete_on_terminate := None |}])
      (PyStr "us-east-1a") world0 = (inr m, w')
    /\ m !! "sdg" = Some r
    /\ objs w' !! r = Some b
    /\ bd_volume_id b = Some vid /\ bd_snapshot_id b = None
    /\ create_volume_calls (trace w')
       = [(Some 8%Z, PyStr "us-east-1a", PyNone, vid)].
Proof.
  destruct (string_source_provisioned sample_create_volume
              (config_of [{| is_volume := true; source := PyStr "snap-7";
                             is_root := false; size := Some 8%Z;
                             delete_on_terminate := None |}])
              (PyStr "us-east-1a") []
              {| is_volume := true; source := PyStr "snap-7";
                 is_root := false; size := Some 8%Z;
                 delete_on_terminate := None |} [] world0 "snap-7"
              eq_refl eq_refl eq_refl)
    as (m & w' & r & b & vid & cpre & cpost & Hrun & Hslot & Hobj & Hvol
        & Hsnap & Hcalls & Hpre & Hpost); [discriminate|cbn; lia|].
  exists m, w', r, b, vid.
  split_and!; [exact Hrun|exact Hslot|exact Hobj|exact Hvol|exact Hsnap|].
  apply fmap_nil_inv in Hpre, Hpost. subst. exact Hcalls.
Defined.

Lemma launch_trace_witness :
  exists vol_evs a res i0,
    trace (AWSInstanceService_create sample_create_volume
             sample_run_instances "web" (PyStr "ami-1") (PyStr "t2.micro")
             (PyObj PlacementZone "z-1" "us-east-1a") PyNone None PyNone
             (Some three_devices) world0).2
    = vol_evs ++ [EvRunInstances a res; EvSetName AWSInstance i0 "web"]
    /\ Forall (compile_event (PyObj PlacementZone "z-1" "us-east-1a")) vol_evs
    /\ placement a = PyStr "us-east-1a".
Proof.
  destruct (launch_trace sample_create_volume sample_run_instances "web"
              (PyStr "ami-1") (PyStr "t2.micro")
              (PyObj PlacementZone "z-1" "us-east-1a") PyNone None PyNone
              (Some three_devices) world0 _ _ (surjective_pairing _))
    as (vol_evs & tail & Htrace & Hevs
        & [(c & _ & _ & Hr & _)
          |(_ & a & res & Hplace & [[_ [e Hr]]|(i0 & Htail & _)])]).
  - exfalso. vm_compute in Hr. discriminate Hr.
  - exfalso. vm_compute in Hr. discriminate Hr.
  - exists vol_evs, a, res, i0. rewrite <- Htail.
    split_and!; [exact Htrace|exact Hevs|exact Hplace].
Defined.

Lemma launch_with_reservation_witness :
  run_instances_calls
    (trace (AWSInstanceService_create sample_create_volume
              sample_run_instances "web" (PyStr "ami-1") (PyStr "t2.micro")
              (PyStr "us-east-1a") PyNone None PyNone None world0).2)
  = run_instances_calls (trace world0)
      ++ [(launch_args (PyStr "ami-1") (PyStr "t2.micro")
             (PyStr "us-east-1a") PyNone None PyNone None PyNone,
           Some ["i-0"])]
  /\ (AWSInstanceService_create sample_create_volume sample_run_instances
        "web" (PyStr "ami-1") (PyStr "t2.micro") (PyStr "us-east-1a") PyNone
        None PyNone None world0).1
     = inr (PyObj AWSInstance "i-0" "web").
Proof.
  set (run := AWSInstanceService_create sample_create_volume
                sample_run_instances "web" (PyStr "ami-1") (PyStr "t2.micro")
                (PyStr "us-east-1a") PyNone None PyNone None world0).
  set (a := launch_args (PyStr "ami-1") (PyStr "t2.micro")
              (PyStr "us-east-1a") PyNone None PyNone None PyNone).
  assert (H : run_instances_calls (trace run.2)
              = run_instances_calls (trace world0) ++ [(a, Some ["i-0"])])
    by reflexivity.
  split; [exact H|].
  exact (proj1 (launch_with_reservation sample_create_volume
                  sample_run_instances "web" (PyStr "ami-1")
                  (PyStr "t2.micro") (PyStr "us-east-1a") PyNone None PyNone
                  None world0 run.1 run.2 a ["i-0"]
                  (surjective_pairing run) H)).
Defined.

Lemma volume_create_snapshot_as_zone_witness :
  isinstance (PyObj AWSSnapshot "snap-1" "nightly") AWSSnapshot = true
  /\ AWSVolumeService_create sample_create_volume "data" (Some 8%Z)
       (PyObj AWSSnapshot "snap-1" "nightly") (PyStr "snap-2") world0
     = (inl AttributeError, world0).
Proof.
  split; [reflexivity|].
  exact (proj1 (volume_create_snapshot_as_zone sample_create_volume "data"
                  (Some 8%Z) (PyObj AWSSnapshot "snap-1" "nightly")
                  (PyStr "snap-2") world0 eq_refl)
           "snap-2" eq_refl ltac:(discriminate)).
Defined.

Lemma refresh_found_witness :
  view (Resource 0) [sample_object "ACTIVE"] = Some (sample_object "ACTIVE")
  /\ exists r' h' p,
       sample_describe "r-1" = Some p
       /\ refresh sample_describe (Resource 0) [sample_object "ACTIVE"]
          = Some (r', h')
       /\ view r' h' = Some p
       /\ OpenStackInstance.state r' h' = Some InstanceState.STOPPED.
Proof.
  split; [reflexivity|].
  destruct (refresh_found sample_describe (Resource 0)
              [sample_object "ACTIVE"] (sample_object "ACTIVE") _
              eq_refl eq_refl)
    as (r' & h' & Hrun & Hview & _ & Hstate & _).
  exists r', h'. eexists. by split_and!.
Defined.

Lemma image_copy_shares_payload_witness :
  view (Resource 0) [sample_object "ACTIVE"] = Some (sample_object "ACTIVE")
  /\ exists h',
       OpenStackMachineImage.refresh (fun _ => None) (Resource 0)
         [sample_object "ACTIVE"] = Some (Resource 0, h')
       /\ OpenStackMachineImage.state
            (OpenStackMachineImage_init (Wrapper (Resource 0))) h'
          = Some MachineImageState.UNKNOWN.
Proof.
  split; [reflexivity|].
  exact (proj1 (proj2 (image_copy_shares_payload (fun _ => None) (Resource 0)
                         [sample_object "ACTIVE"] (sample_object "ACTIVE")
                         eq_refl)) eq_refl).
Defined.

